(** * fips: build-config resolution and backend orchestration

    A shallow embedding of [mod/log.py], [mod/config.py], [mod/project.py],
    [mod/tools/cmake.py], [mod/tools/ninja.py] and [mod/tools/clion.py].
    Python functions that print, touch the file system, start external
    tools or terminate the interpreter become computations in a small
    state-and-exception monad; everything the modules import but do not
    define themselves ([mod.util], [mod.dep], [mod.settings], the tool
    wrappers for make, xcodebuild and vscode, the YAML parser, [glob],
    the processes started through [subprocess]) is an oracle of the
    environment record [Env].

    Paths are POSIX path strings ([os.path] is [posixpath]), and the file
    system knows a directory or a file by its path as spelled: there are
    no links, and the functions below reach a given file or directory
    under one spelling only.  The root directory always exists. *)

From Stdlib Require Import Ascii String.
From stdpp Require Import base option list gmap strings pretty sorting.

(** ** Python values *)

(** Values found in a parsed config file.  [VOther] stands for any value
    that is neither [None], a bool, an int nor a str (a float, a sequence,
    a mapping); only its [str()] rendering and its truth value are ever
    observed by the code below. *)
Inductive pyval : Type :=
  | VNone
  | VBool (b : bool)
  | VInt (z : Z)
  | VStr (s : string)
  | VOther (rendering : string) (truth : bool).

#[global] Instance pyval_eq_dec : EqDecision pyval.
Proof. solve_decision. Defined.

(** [str(v)], as used by f-string interpolation. *)
Definition py_str (v : pyval) : string :=
  match v with
  | VNone => "None"
  | VBool true => "True"
  | VBool false => "False"
  | VInt z => pretty z
  | VStr s => s
  | VOther r _ => r
  end.

(** Truth value testing ([if v:]). *)
Definition py_truthy (v : pyval) : bool :=
  match v with
  | VNone => false
  | VBool b => b
  | VInt z => negb (bool_decide (z = 0%Z))
  | VStr s => negb (bool_decide (s = ""))
  | VOther _ t => t
  end.

(** [v in [s1, s2, ...]] for a list of string literals. *)
Definition py_in (v : pyval) (l : list string) : bool :=
  existsb (λ s, bool_decide (v = VStr s)) l.

(** [v == 'literal'] *)
Definition py_eq (v : pyval) (s : string) : bool := bool_decide (v = VStr s).

(** A function of [mod.util] returning a path or [None], tested with [if]. *)
Definition truthy_path (o : option string) : option string :=
  match o with
  | Some s => if bool_decide (s = "") then None else Some s
  | None => None
  end.

(** A loaded config is a Python dict with string keys. *)
Abbreviation config := (gmap string pyval).

(** Insertion-ordered dicts ([OrderedDict], and plain dicts that are
    iterated): assignment to an existing key keeps its position. *)
Fixpoint dict_set {V} (k : string) (v : V) (d : list (string * V)) : list (string * V) :=
  match d with
  | [] => [(k, v)]
  | (k', v') :: d' => if bool_decide (k' = k) then (k, v) :: d' else (k', v') :: dict_set k v d'
  end.

Fixpoint dict_alter {V} (f : V → V) (k : string) (d : list (string * V)) : list (string * V) :=
  match d with
  | [] => []
  | (k', v') :: d' => if bool_decide (k' = k) then (k', f v') :: d' else (k', v') :: dict_alter f k d'
  end.

Fixpoint dict_get {V} (k : string) (d : list (string * V)) : option V :=
  match d with
  | [] => None
  | (k', v') :: d' => if bool_decide (k' = k) then Some v' else dict_get k d'
  end.

(** ** [os.path] on POSIX path strings *)

(** [(p[:i], p[i:])] with [i = p.rfind(sep) + 1]. *)
Fixpoint split_last (sep : ascii) (p : string) : string * string :=
  match p with
  | EmptyString => ("", "")
  | String c r =>
      match split_last sep r with
      | (EmptyString, t) =>
          if bool_decide (c = sep) then (String c "", t) else ("", String c t)
      | (h, t) => (String c h, t)
      end
  end.

Fixpoint all_chars (c : ascii) (s : string) : bool :=
  match s with
  | EmptyString => true
  | String c' r => bool_decide (c' = c) && all_chars c r
  end.

Fixpoint rstrip (c : ascii) (s : string) : string :=
  match s with
  | EmptyString => ""
  | String c' r =>
      match rstrip c r with
      | EmptyString => if bool_decide (c' = c) then "" else String c' ""
      | r' => String c' r'
      end
  end.

Definition drop_last (s : string) : string :=
  String.substring 0 (String.length s - 1) s.

(** [os.path.split]: the head loses its trailing slashes unless it
    consists of slashes only. *)
Definition os_path_split (p : string) : string * string :=
  let '(head, tail) := split_last "/" p in
  if negb (bool_decide (head = "")) && negb (all_chars "/" head)
  then (rstrip "/" head, tail) else (head, tail).

(** [os.path.splitext]: the extension starts at the last dot of the last
    path component, leading dots of that component not counting. *)
Definition os_path_splitext (p : string) : string * string :=
  let '(dir, base) := split_last "/" p in
  match split_last "." base with
  | (EmptyString, _) => (p, "")
  | (stem_dot, ext) =>
      let stem := drop_last stem_dot in
      if all_chars "." stem then (p, "") else (dir +:+ stem, "." +:+ ext)
  end.

(** ** File system, external tools, interpreter state *)

(** Directories and regular files (with their text), keyed by path. *)
Record FS : Type := mkFS {
  fs_dirs : gset string;
  fs_files : gmap string string
}.

(** A path made of slashes only names the root directory. *)
Definition is_root (p : string) : bool := negb (bool_decide (p = "")) && all_chars "/" p.

Definition isdir (fs : FS) (p : string) : bool := bool_decide (p ∈ fs_dirs fs) || is_root p.
Definition isfile (fs : FS) (p : string) : bool := bool_decide (is_Some (fs_files fs !! p)).
Definition path_exists (fs : FS) (p : string) : bool := isdir fs p || isfile fs p.

Definition fs_mkdir (p : string) (fs : FS) : FS := mkFS (fs_dirs fs ∪ {[p]}) (fs_files fs).

Definition fs_write (p content : string) (fs : FS) : FS :=
  mkFS (fs_dirs fs) (<[p := content]> (fs_files fs)).

Definition under (root p : string) : bool :=
  bool_decide (p = root) || String.prefix (root +:+ "/") p.

Definition fs_rmtree (root : string) (fs : FS) : FS :=
  mkFS (filter (λ p, under root p = false) (fs_dirs fs))
       (filter (λ kv, under root kv.1 = false) (fs_files fs)).

(** What is started outside the modelled code: a shell command run with
    [subprocess.call(cmdLine, cwd=cwd, shell=True)], and calls of the
    wrappers for make, xcodebuild and vscode. *)
Inductive tool_call : Type :=
  | shell (cmdLine cwd : string)
  | vscode_write_workspace_settings (fips_dir proj_dir : string) (cfg : config)
  | make_run_build (fips_dir : string) (target : option string) (build_dir : string) (num_jobs : pyval)
  | xcodebuild_run_build (fips_dir : string) (target : option string) (build_type : pyval)
      (build_dir : string) (num_jobs : pyval).

Inductive pyexc : Type :=
  | SystemExit (code : Z)
  | KeyError (key : string)
  | AttributeError (attr : string)
  | TypeError
  | IndexError
  | FileExistsError (path : string)
  | FileNotFoundError (path : string)
  | NotADirectoryError (path : string)
  | IsADirectoryError (path : string)
  | SameFileError (path : string).

(** What a run has printed, the file system, and the tool calls made. *)
Record state : Type := mkState {
  st_out : list string;
  st_fs : FS;
  st_calls : list tool_call
}.

Inductive outcome (A : Type) : Type :=
  | Ret (a : A)
  | Raise (e : pyexc).
Arguments Ret {A} a.
Arguments Raise {A} e.

(** A computation keeps the state it reached also when it raises. *)
Definition M (A : Type) : Type := state → outcome A * state.

Definition ret {A} (a : A) : M A := λ s, (Ret a, s).
Definition raise {A} (e : pyexc) : M A := λ s, (Raise e, s).
Definition bind {A B} (m : M A) (k : A → M B) : M B :=
  λ s, match m s with
       | (Ret a, s') => k a s'
       | (Raise e, s') => (Raise e, s')
       end.

Notation "'let*' x ':=' m 'in' k" := (bind m (λ x, k))
  (at level 10, x pattern, m at level 100, k at level 200).
Notation "m '>>' k" := (bind m (λ _, k))
  (at level 100, k at level 200, right associativity).

Definition print (line : string) : M unit :=
  λ s, (Ret tt, mkState (st_out s ++ [line]) (st_fs s) (st_calls s)).

Definition get_fs : M FS := λ s, (Ret (st_fs s), s).

Definition set_fs (fs : FS) : M unit :=
  λ s, (Ret tt, mkState (st_out s) fs (st_calls s)).

(** [cfg[key]] *)
Definition getitem (cfg : config) (key : string) : M pyval :=
  match cfg !! key with
  | Some v => ret v
  | None => raise (KeyError key)
  end.

(** What [open], [os.mkdir] and [subprocess] raise for a path that
    cannot be reached because the directory it lies in, [dir], is none. *)
Definition unreachable (fs : FS) (dir p : string) : pyexc :=
  if isfile fs dir then NotADirectoryError p else FileNotFoundError p.

(** [os.mkdir(p)] *)
Definition os_mkdir (p : string) : M unit :=
  let* fs := get_fs in
  if bool_decide (p = "") then raise (FileNotFoundError p)
  else if path_exists fs p then raise (FileExistsError p)
  else
    let parent := (os_path_split p).1 in
    if bool_decide (parent = "") || isdir fs parent then set_fs (fs_mkdir p fs)
    else raise (unreachable fs parent p).

(** [try: m] [except FileExistsError: pass] *)
Definition except_file_exists (m : M unit) : M unit :=
  λ s, match m s with
       | (Raise (FileExistsError _), s') => (Ret tt, s')
       | r => r
       end.

(** [os.makedirs(name)], [exist_ok] left at [False].  The recursion is
    on the head of the path, which is shorter than the path; [fuel]
    bounds it. *)
Fixpoint makedirs (fuel : nat) (name : string) : M unit :=
  let '(head, tail) := os_path_split name in
  let '(head, tail) := if bool_decide (tail = "") then os_path_split head else (head, tail) in
  let* fs := get_fs in
  if negb (bool_decide (head = "")) && negb (bool_decide (tail = ""))
     && negb (path_exists fs head)
  then
    match fuel with
    | S fuel' =>
        except_file_exists (makedirs fuel' head) >>
        (* xxx/newdir/. exists if xxx/newdir exists *)
        if bool_decide (tail = ".") then ret tt else os_mkdir name
    | O => os_mkdir name
    end
  else os_mkdir name.

Definition os_makedirs (p : string) : M unit := makedirs (String.length p) p.

(** [with open(p, 'w') as f: f.write(...)], all writes joined. *)
Definition write_text (p content : string) : M unit :=
  let* fs := get_fs in
  if isdir fs p then raise (IsADirectoryError p)
  else
    let parent := (os_path_split p).1 in
    if bool_decide (parent = "") || isdir fs parent then set_fs (fs_write p content fs)
    else raise (unreachable fs parent p).

(** [shutil.rmtree(p)] *)
Definition shutil_rmtree (p : string) : M unit :=
  let* fs := get_fs in
  if isdir fs p then set_fs (fs_rmtree p fs)
  else raise (unreachable fs p p).

(** [os.path.join(a, b)] *)
Definition os_path_join (a b : string) : string :=
  if String.prefix "/" b then b
  else if bool_decide (a = "") || bool_decide ((split_last "/" a).2 = "") then a +:+ b
  else a +:+ "/" +:+ b.

(** [shutil.copy(src, dst)] *)
Definition shutil_copy (src dst : string) : M unit :=
  let* fs := get_fs in
  let dst := if isdir fs dst then os_path_join dst (split_last "/" src).2 else dst in
  if bool_decide (src = dst) && path_exists fs src then raise (SameFileError src)
  else
    match fs_files fs !! src with
    | Some content => write_text dst content
    | None => raise (if isdir fs src then IsADirectoryError src else FileNotFoundError src)
    end.

(** Result of [yaml.load] on the file at a path: the mapping it holds, or
    a [YAMLError]; [message] is the exception object's [message]
    attribute, [None] when it has no such attribute. *)
Inductive yaml_result : Type :=
  | YamlOk (doc : config)
  | YamlError (message : option pyval).

(** ** The environment *)

Record Env : Type := mkEnv {
  (* mod.util *)
  get_toolchains_dir : string → option string;
  get_configs_dir : string → option string;
  get_project_name_from_dir : string → string;
  get_build_dir : string → string → pyval → string;
  get_deploy_dir : string → string → pyval → string;
  ensure_valid_project_dir : string → FS → outcome unit * FS;
  (* mod.dep *)
  get_all_imports_exports : string → string → bool * list (string * string);
  get_policy : string → string → pyval;
  fetch_imports : string → string → FS → outcome unit * FS;
  gather_and_write_imports : string → string → string → FS → outcome unit * FS;
  (* mod.settings *)
  settings_get : string → string → pyval;
  (* check_exists of the tool wrappers, emscripten and android *)
  cmake_check_exists : string → bool;
  make_check_exists : string → bool;
  ninja_check_exists : string → bool;
  xcodebuild_check_exists : string → bool;
  vscode_check_exists : string → bool;
  clion_check_exists : string → bool;
  emscripten_check_exists : string → bool;
  android_check_exists : string → bool;
  (* the [name] constants of mod.tools.make and mod.tools.xcodebuild *)
  make_name : string;
  xcodebuild_name : string;
  (* mod.tools.xcrun *)
  get_ios_sdk_sysroot : pyval;
  get_macos_sdk_sysroot : pyval;
  (* glob.glob and open + yaml.load on the config directories *)
  glob : string → list string;
  yaml_load : string → yaml_result;
  (* platform.system() *)
  platform_system : string;
  (* for a value that is neither None, a bool, an int nor a str: the keys
     it yields when iterated, as str() renders them, each with what the
     value holds under the key; or the exception that iterating or
     subscripting it raises *)
  items_of : pyval → pyexc + list (string * pyval);
  (* what is started outside: whether it succeeded (exit status 0 for a
     shell command) and what it leaves on disk *)
  run_tool : tool_call → FS → bool * FS
}.

(** A procedure of [mod.util] or [mod.dep] that works on the disk. *)
Definition external (f : FS → outcome unit * FS) : M unit :=
  λ s, let '(r, fs') := f (st_fs s) in (r, mkState (st_out s) fs' (st_calls s)).

(** A tool call: recorded, then run. *)
Definition call_tool (E : Env) (c : tool_call) : M bool :=
  λ s, let '(ok, fs') := run_tool E c (st_fs s) in
       (Ret ok, mkState (st_out s) fs' (st_calls s ++ [c])).

(** [subprocess.call(cmdLine, cwd=cwd, shell=True) == 0]: the process is
    started in an existing directory only. *)
Definition subprocess_call (E : Env) (cmdLine cwd : string) : M bool :=
  let* fs := get_fs in
  if isdir fs cwd then call_tool E (shell cmdLine cwd)
  else raise (unreachable fs cwd cwd).

(** ** mod/log.py *)

Module log.

Definition ESC : string := String (ascii_of_nat 27) "".
Definition RED : string := ESC +:+ "[31m".
Definition GREEN : string := ESC +:+ "[32m".
Definition YELLOW : string := ESC +:+ "[33m".
Definition DEF : string := ESC +:+ "[39m".

(** [error(msg, fatal=True)]: [fatal] is whatever the caller passes. *)
Definition error (msg : string) (fatal : pyval) : M unit :=
  print (RED +:+ "[ERROR]" +:+ DEF +:+ " " +:+ msg) >>
  if py_truthy fatal then raise (SystemExit 10) else ret tt.

Definition warn (msg : string) : M unit :=
  print (YELLOW +:+ "[WARNING]" +:+ DEF +:+ " " +:+ msg).

Definition info (msg : string) : M unit := print msg.

Definition colored (color msg : string) : M unit :=
  print (color +:+ msg +:+ DEF).

End log.

(** The default of [log.error]'s second parameter. *)
Definition fatal_default : pyval := VBool true.

(** ** mod/config.py *)

Module config.

(** non-cross-compiling platforms *)
Definition native_platforms : list string := ["osx"; "linux"; "win32"; "win64"].

Definition build_tools : list string :=
  ["make"; "ninja"; "xcodebuild"; "cmake"; "vscode_cmake"; "clion"].

Definition valid_build_tool (name : pyval) : bool := py_in name build_tools.

(** The imported-project loop of [get_toolchain]; [None] when the loop
    runs to its end, which is when Python enters the loop's [else]. *)
Fixpoint search_imported (E : Env) (fs : FS) (toolchain : string)
    (imported_projs : list (string * string)) : option string :=
  match imported_projs with
  | [] => None
  | (_, imported_proj_dir) :: rest =>
      let toolchain_path :=
        match truthy_path (get_toolchains_dir E imported_proj_dir) with
        | Some toolchain_dir => Some (toolchain_dir +:+ "/" +:+ toolchain)
        | None => None
        end in
      match toolchain_path with
      | Some p => if isfile fs p then Some p else search_imported E fs toolchain rest
      | None => search_imported E fs toolchain rest
      end
  end.

Definition get_toolchain (E : Env) (fips_dir proj_dir : string) (cfg : config)
    : M (option string) :=
  (* ignore native target platforms *)
  let* native :=
    match cfg !! "platform" with
    | Some platform => ret (py_in platform native_platforms)
    | None =>
        log.error "config has no 'platform' attribute!'" fatal_default >> ret false
    end in
  if native : bool then ret None else
  (* build toolchain file name *)
  let* toolchain :=
    match cfg !! "cmake-toolchain" with
    | Some t => ret (py_str t)
    | None => let* platform := getitem cfg "platform" in
              ret (py_str platform +:+ ".toolchain.cmake")
    end in
  let* fs := get_fs in
  let toolchain_path :=
    match truthy_path (get_toolchains_dir E proj_dir) with
    | Some toolchain_dir => Some (toolchain_dir +:+ "/" +:+ toolchain)
    | None => None
    end in
  if from_option (isfile fs) false toolchain_path then ret toolchain_path else
  (* look for toolchain in all imported directories *)
  let imported_projs := (get_all_imports_exports E fips_dir proj_dir).2 in
  match search_imported E fs toolchain imported_projs with
  | Some p => ret (Some p)
  | None =>
      (* toolchain is not in current project or imported projects,
         try the fips directory *)
      let toolchain_path := fips_dir +:+ "/cmake-toolchains/" +:+ toolchain in
      if isfile fs toolchain_path then ret (Some toolchain_path)
      else (* fallthrough: no toolchain file found *) ret None
  end.

(** The [dirs.append] loop over the imports of [get_config_dirs]. *)
Fixpoint import_config_dirs (E : Env) (result : list (string * string)) : list string :=
  match result with
  | [] => []
  | (_, dep_proj_dir) :: rest =>
      match truthy_path (get_configs_dir E dep_proj_dir) with
      | Some dep_configs_dir => dep_configs_dir :: import_config_dirs E rest
      | None => import_config_dirs E rest
      end
  end.

Definition get_config_dirs (E : Env) (fips_dir proj_dir : string) : M (list string) :=
  let* dirs :=
    if bool_decide (fips_dir ≠ proj_dir) then
      let '(success, result) := get_all_imports_exports E fips_dir proj_dir in
      if success then ret (import_config_dirs E result)
      else log.warn "missing import directories, please run 'fips fetch'" >> ret []
    else ret [] in
  ret (dirs ++ [fips_dir +:+ "/configs"]).

(** The name a config file is known by: its file name less the extension. *)
Definition config_name (path : string) : string :=
  (os_path_splitext (os_path_split path).2).1.

Definition setdefault (key : string) (v : pyval) (cfg : config) : config :=
  match cfg !! key with
  | Some _ => cfg
  | None => <[key := v]> cfg
  end.

(** The body of [load]'s [try] up to the duplicate test: patch path,
    folder and name, fill in the optional attributes. *)
Definition patch (path : string) (cfg : config) : config :=
  let '(folder, fname) := os_path_split path in
  let cfg := <["path" := VStr path]> cfg in
  let cfg := <["folder" := VStr folder]> cfg in
  let cfg := <["name" := VStr (os_path_splitext fname).1]> cfg in
  let cfg := setdefault "generator" (VStr "Default") cfg in
  let cfg := setdefault "generator-platform" VNone cfg in
  let cfg := setdefault "generator-toolset" VNone cfg in
  setdefault "defines" VNone cfg.

(** [for c in configs: if c['name'] == cfg['name']: break] *)
Definition name_taken (configs : list config) (cfg : config) : bool :=
  existsb (λ c, bool_decide (c !! "name" = cfg !! "name")) configs.

(** [e.message] *)
Definition getattr_message (message : option pyval) : M pyval :=
  match message with
  | Some m => ret m
  | None => raise (AttributeError "message")
  end.

(** The inner loop of [load] over the paths matched in one directory. *)
Fixpoint load_paths (E : Env) (paths : list string) (configs : list config)
    : M (list config) :=
  match paths with
  | [] => ret configs
  | path :: rest =>
      match yaml_load E path with
      | YamlOk doc =>
          let cfg := patch path doc in
          (* don't append multiple configs with the same name *)
          if name_taken configs cfg then load_paths E rest configs
          else load_paths E rest (configs ++ [cfg])
      | YamlError message =>
          let* fatal := getattr_message message in
          log.error "YML parse error: {}" fatal >>
          load_paths E rest configs
      end
  end.

(** The outer loop of [load] over the config directories. *)
Fixpoint load_dirs (E : Env) (pattern : string) (dirs : list string)
    (configs : list config) : M (list config) :=
  match dirs with
  | [] => ret configs
  | curDir :: rest =>
      let paths := glob E (curDir +:+ "/" +:+ pattern +:+ ".yml") in
      let* configs := load_paths E paths configs in
      load_dirs E pattern rest configs
  end.

Definition load (E : Env) (fips_dir proj_dir pattern : string) : M (list config) :=
  let* dirs := get_config_dirs E fips_dir proj_dir in
  load_dirs E pattern dirs [].

Definition check_build_tool (E : Env) (fips_dir : string) (tool_name : pyval) : bool :=
  if py_eq tool_name "cmake" then cmake_check_exists E fips_dir
  else if py_eq tool_name "make" then make_check_exists E fips_dir
  else if py_eq tool_name "ninja" then ninja_check_exists E fips_dir
  else if py_eq tool_name "xcodebuild" then xcodebuild_check_exists E fips_dir
  else if py_eq tool_name "vscode_cmake" then vscode_check_exists E fips_dir
  else if py_eq tool_name "clion" then clion_check_exists E fips_dir
  else false.

Definition check_sdk (E : Env) (fips_dir : string) (platform_name : pyval) : bool :=
  if py_eq platform_name "emscripten" then emscripten_check_exists E fips_dir
  else if py_eq platform_name "android" then android_check_exists E fips_dir
  else true.

Definition required_fields : list string :=
  ["name"; "folder"; "platform"; "generator"; "build_tool"; "build_type"].

(** The required-fields loop of [check_config_valid], threading the
    locals [valid] and [messages]. *)
Fixpoint check_required (cfg : config) (fields : list string)
    (valid : bool) (messages : list string) : M (bool * list string) :=
  match fields with
  | [] => ret (valid, messages)
  | field :: rest =>
      match cfg !! field with
      | Some _ => check_required cfg rest valid messages
      | None =>
          let* path := getitem cfg "path" in
          check_required cfg rest false
            (messages ++ ["missing field '" +:+ field +:+ "' in '" +:+ py_str path +:+ "'"])
      end
  end.

(** [for msg in messages: log.error(msg, False)] *)
Fixpoint print_messages (messages : list string) : M unit :=
  match messages with
  | [] => ret tt
  | msg :: rest => log.error msg (VBool false) >> print_messages rest
  end.

Definition check_config_valid (E : Env) (fips_dir proj_dir : string) (cfg : config)
    (print_errors : bool) : M (bool * list string) :=
  (* check whether all required fields are present *)
  let* (valid, messages) := check_required cfg required_fields true [] in
  (* check if the target platform SDK is installed *)
  let* platform := getitem cfg "platform" in
  let (valid, messages) :=
    if negb (check_sdk E fips_dir platform) then
      (false, messages ++ ["platform sdk for '" +:+ py_str platform
                           +:+ "' not installed (see './fips help setup')"])
    else (valid, messages) in
  (* check if build tool is valid *)
  let* build_tool := getitem cfg "build_tool" in
  let* (valid, messages) :=
    if negb (valid_build_tool build_tool) then
      let* path := getitem cfg "path" in
      ret (false, messages ++ ["invalid build_tool name '" +:+ py_str build_tool
                               +:+ "' in '" +:+ py_str path +:+ "'"])
    else ret (valid, messages) in
  (* check if the build tool can be found *)
  let (valid, messages) :=
    if negb (check_build_tool E fips_dir build_tool) then
      (false, messages ++ ["build tool '" +:+ py_str build_tool +:+ "' not found"])
    else (valid, messages) in
  (* check if the toolchain file can be found (if this is a
     crosscompiling toolchain) *)
  let* (valid, messages) :=
    if negb (py_in platform native_platforms) then
      let* toolchain_path := get_toolchain E fips_dir proj_dir cfg in
      match truthy_path toolchain_path with
      | Some _ => ret (valid, messages)
      | None =>
          let* name := getitem cfg "name" in
          ret (false, messages ++ ["toolchain file not found for config '"
                                   +:+ py_str name +:+ "'!"])
      end
    else ret (valid, messages) in
  (if print_errors then print_messages messages else ret tt) >>
  ret (valid, messages).

(** The [append] loop of [list] for one directory. *)
Fixpoint append_names (curDir : string) (paths : list string)
    (res : list (string * list string)) : list (string * list string) :=
  match paths with
  | [] => res
  | path :: rest =>
      let fname := (os_path_split path).2 in
      let fname := (os_path_splitext fname).1 in
      append_names curDir rest (dict_alter (λ names, names ++ [fname]) curDir res)
  end.

(** The order of [list.sort] on [str]: by code points. *)
Definition str_le (a b : string) : Prop := String.leb a b = true.

#[global] Instance str_le_dec : RelDecision str_le.
Proof. intros a b. unfold str_le. apply _. Defined.

Fixpoint list_dirs (E : Env) (dirs : list string) (res : list (string * list string))
    : list (string * list string) :=
  match dirs with
  | [] => res
  | curDir :: rest =>
      let res := dict_set curDir [] res in
      let paths := glob E (curDir +:+ "/*.yml") in
      let res := append_names curDir paths res in
      let res := dict_alter (merge_sort str_le) curDir res in
      list_dirs E rest res
  end.

Definition list (E : Env) (fips_dir proj_dir pattern : string)
    : M (Datatypes.list (string * Datatypes.list string)) :=
  let* dirs := get_config_dirs E fips_dir proj_dir in
  ret (list_dirs E dirs []).

End config.

(** ** mod/tools/clion.py *)

Module clion.

Definition DQ : string := String (ascii_of_nat 34) "".
Definition NL : string := String (ascii_of_nat 10) "".
Definition quoted (s : string) : string := DQ +:+ s +:+ DQ.

Definition xml_header : string :=
  "<?xml version=" +:+ quoted "1.0" +:+ " encoding=" +:+ quoted "UTF-8" +:+ "?>" +:+ NL.

Definition iml_text : string :=
  xml_header +:+
  "<module classpath=" +:+ quoted "CMake" +:+ " type=" +:+ quoted "CPP_MODULE"
  +:+ " version=" +:+ quoted "4" +:+ " />".

Definition misc_text : string :=
  xml_header +:+
  "<project version=" +:+ quoted "4" +:+ ">" +:+ NL +:+
  "  <component name=" +:+ quoted "CMakeWorkspace" +:+ " IGNORE_OUTSIDE_FILES="
  +:+ quoted "true" +:+ " PROJECT_DIR=" +:+ quoted "$PROJECT_DIR$" +:+ " />" +:+ NL +:+
  "</project>".

Definition modules_text (proj_name : string) : string :=
  xml_header +:+
  "<project version=" +:+ quoted "4" +:+ ">" +:+ NL +:+
  "  <component name=" +:+ quoted "ProjectModuleManager" +:+ ">" +:+ NL +:+
  "    <modules>" +:+ NL +:+
  "      <module fileurl=" +:+ quoted ("file://$PROJECT_DIR$/.idea/" +:+ proj_name +:+ ".iml")
  +:+ " filepath=" +:+ quoted ("$PROJECT_DIR$/.idea/" +:+ proj_name +:+ ".iml")
  +:+ " />" +:+ NL +:+
  "    </modules>" +:+ NL +:+
  "  </component>" +:+ NL +:+
  "</project>".

Definition workspace_text (gen_options gen_dir : string) : string :=
  xml_header +:+
  "<project version=" +:+ quoted "4" +:+ ">" +:+ NL +:+
  "  <component name=" +:+ quoted "CMakeSettings" +:+ ">" +:+ NL +:+
  "    <configurations>" +:+ NL +:+
  "      <configuration PROFILE_NAME=" +:+ quoted "Debug" +:+ " CONFIG_NAME="
  +:+ quoted "Debug" +:+ " GENERATION_OPTIONS=" +:+ quoted gen_options
  +:+ " GENERATION_DIR=" +:+ quoted gen_dir +:+ " />" +:+ NL +:+
  "    </configurations>" +:+ NL +:+
  "  </component>" +:+ NL +:+
  "</project>".

Definition iml_path (E : Env) (proj_dir : string) : string :=
  proj_dir +:+ "/.idea/" +:+ get_project_name_from_dir E proj_dir +:+ ".iml".

Definition ws_path (proj_dir : string) : string := proj_dir +:+ "/.idea/workspace.xml".

(** write misc.xml, modules.xml, *.iml *)
Definition write_clion_module_files (E : Env) (fips_dir proj_dir : string) (cfg : config)
    : M unit :=
  let proj_name := get_project_name_from_dir E proj_dir in
  let iml_path := proj_dir +:+ "/.idea/" +:+ proj_name +:+ ".iml" in
  let* fs := get_fs in
  if path_exists fs iml_path then ret tt else
  write_text iml_path iml_text >>
  write_text (proj_dir +:+ "/.idea/misc.xml") misc_text >>
  write_text (proj_dir +:+ "/.idea/modules.xml") (modules_text proj_name).

(** write bare-bone workspace.xml config file *)
Definition write_clion_workspace_file (E : Env) (fips_dir proj_dir : string) (cfg : config)
    : M unit :=
  let proj_name := get_project_name_from_dir E proj_dir in
  let* name := getitem cfg "name" in
  let gen_options := "-DFIPS_CONFIG=" +:+ py_str name in
  let gen_dir := "$PROJECT_DIR$/../fips-build/" +:+ proj_name +:+ "/" +:+ py_str name in
  let ws_path := proj_dir +:+ "/.idea/workspace.xml" in
  let* fs := get_fs in
  (* do not overwrite existing .xml *)
  if path_exists fs ws_path then ret tt else
  write_text ws_path (workspace_text gen_options gen_dir).

(** write the CLion *.xml files required to open the project *)
Definition write_workspace_settings (E : Env) (fips_dir proj_dir : string) (cfg : config)
    : M unit :=
  log.info "=== writing JetBrains CLion config files..." >>
  let clion_dir := proj_dir +:+ "/.idea" in
  let* fs := get_fs in
  (if negb (isdir fs clion_dir) then os_makedirs clion_dir else ret tt) >>
  write_clion_module_files E fips_dir proj_dir cfg >>
  write_clion_workspace_file E fips_dir proj_dir cfg.

End clion.

(** ** mod/tools/ninja.py *)

Module ninja.

Definition name : string := "ninja".

Definition get_ninja_name (E : Env) : string :=
  if bool_decide (platform_system E = "Windows") then "ninja.exe" else "ninja".

(** get the ninja tool exe *)
Definition get_ninja_tool (E : Env) (fips_dir : string) : string :=
  if bool_decide (platform_system E = "Windows")
  then (* on Windows, use the precompiled ninja.exe coming with fips *)
       fips_dir +:+ "/tools/win32/" +:+ get_ninja_name E
  else (* everywhere else, expect it in the path *)
       get_ninja_name E.

(** on Windows, copies the ninja.exe into the build dir, so that cmake
    can find it *)
Definition prepare_ninja_tool (E : Env) (fips_dir build_dir : string) : M unit :=
  if bool_decide (platform_system E = "Windows")
  then shutil_copy (get_ninja_tool E fips_dir) build_dir
  else ret tt.

(** build a target *)
Definition run_build (E : Env) (fips_dir : string) (target : option string)
    (build_dir : string) (num_jobs : pyval) : M bool :=
  let target := default "all" (truthy_path target) in
  prepare_ninja_tool E fips_dir build_dir >>
  let cmdLine := get_ninja_name E +:+ " -j " +:+ py_str num_jobs +:+ " " +:+ target in
  print cmdLine >>
  subprocess_call E cmdLine build_dir.

End ninja.

(** ** mod/tools/cmake.py *)

Module cmake.

Definition DQ : string := String (ascii_of_nat 34) "".

(** The keys and values the loop over [cfg['defines']] visits, or the
    exception it ends with: a bool or an int cannot be iterated, a
    character of a str is no index into it. *)
Definition define_items (E : Env) (defines : pyval) : pyexc + list (string * pyval) :=
  match defines with
  | VNone => inr []
  | VBool _ | VInt _ => inl TypeError
  | VStr s => if bool_decide (s = "") then inr [] else inl TypeError
  | VOther _ _ => items_of E defines
  end.

(** What the body of that loop appends for one key. *)
Definition config_define (item : string * pyval) : string :=
  match item with
  | (key, VBool val) => " -D" +:+ key +:+ "=" +:+ (if val then "ON" else "OFF")
  | (key, val) => " -D" +:+ key +:+ "=" +:+ DQ +:+ py_str val +:+ DQ
  end.

Definition concat (l : list string) : string := foldr String.append "" l.

(** The command line [run_gen] builds, up to its [print]. *)
Definition gen_command_line (E : Env) (cfg : config)
    (fips_dir project_dir build_dir : string) (toolchain_path : option string)
    (defines : list (string * pyval)) : M string :=
  let cmdLine := "cmake" in
  let* generator := getitem cfg "generator" in
  let cmdLine :=
    if negb (py_eq generator "Default")
    then cmdLine +:+ " -G " +:+ DQ +:+ py_str generator +:+ DQ else cmdLine in
  let* generator_platform := getitem cfg "generator-platform" in
  let cmdLine :=
    if py_truthy generator_platform
    then cmdLine +:+ " -A " +:+ DQ +:+ py_str generator_platform +:+ DQ else cmdLine in
  let* generator_toolset := getitem cfg "generator-toolset" in
  let cmdLine :=
    if py_truthy generator_toolset
    then cmdLine +:+ " -T " +:+ DQ +:+ py_str generator_toolset +:+ DQ else cmdLine in
  let* build_type := getitem cfg "build_type" in
  let cmdLine := cmdLine +:+ " -DCMAKE_BUILD_TYPE=" +:+ py_str build_type in
  let* build_tool := getitem cfg "build_tool" in
  let cmdLine :=
    if py_eq build_tool "ninja" && bool_decide (platform_system E = "Windows")
    then cmdLine +:+ " -DCMAKE_MAKE_PROGRAM=" +:+ ninja.get_ninja_tool E fips_dir
    else cmdLine in
  let cmdLine :=
    match toolchain_path with
    | Some p => cmdLine +:+ " -DCMAKE_TOOLCHAIN_FILE=" +:+ p
    | None => cmdLine
    end in
  let* name := getitem cfg "name" in
  let cmdLine := cmdLine +:+ " -DFIPS_CONFIG=" +:+ py_str name in
  let* cfg_defines := getitem cfg "defines" in
  let* items :=
    match define_items E cfg_defines with
    | inr items => ret items
    | inl e => raise e
    end in
  let cmdLine := cmdLine +:+ concat (config_define <$> items) in
  let cmdLine :=
    cmdLine +:+ concat ((λ kv, " -D" +:+ kv.1 +:+ "=" +:+ py_str kv.2) <$> defines) in
  let cmdLine := cmdLine +:+ " -B" +:+ build_dir in
  let cmdLine := cmdLine +:+ " -H" +:+ project_dir in
  ret cmdLine.

(** run cmake tool to generate build files *)
Definition run_gen (E : Env) (cfg : config) (fips_dir project_dir build_dir : string)
    (toolchain_path : option string) (defines : list (string * pyval)) : M bool :=
  let* cmdLine :=
    gen_command_line E cfg fips_dir project_dir build_dir toolchain_path defines in
  print cmdLine >>
  subprocess_call E cmdLine build_dir.

(** run cmake in build mode *)
Definition run_build (E : Env) (fips_dir : string) (target : option string)
    (build_type : pyval) (build_dir : string) (num_jobs : pyval) : M bool :=
  let cmdLine := "cmake --build . --config " +:+ py_str build_type in
  let cmdLine :=
    match truthy_path target with
    | Some t => cmdLine +:+ " --target " +:+ t
    | None => cmdLine
    end in
  let cmdLine :=
    if bool_decide (platform_system E = "Windows")
    then cmdLine +:+ " -- /nologo /verbosity:minimal /maxcpucount:" +:+ py_str num_jobs
    else cmdLine +:+ " -- -j" +:+ py_str num_jobs in
  print cmdLine >>
  subprocess_call E cmdLine build_dir.

End cmake.

(** ** mod/project.py *)

Module project.

(** private: generate build files for one config *)
Definition gen_project (E : Env) (fips_dir proj_dir : string) (cfg : config) (force : bool)
    : M bool :=
  let proj_name := get_project_name_from_dir E proj_dir in
  let* name := getitem cfg "name" in
  let build_dir := get_build_dir E fips_dir proj_name name in
  let defines :=
    [("FIPS_USE_CCACHE",
      VStr (if py_truthy (settings_get E proj_dir "ccache") then "ON" else "OFF"))] in
  let defines :=
    dict_set "FIPS_AUTO_IMPORT"
      (VStr (if py_truthy (get_policy E proj_dir "no_auto_import") then "OFF" else "ON"))
      defines in
  let* generator := getitem cfg "generator" in
  let defines :=
    if py_in generator ["Ninja"; "Unix Makefiles"]
    then dict_set "CMAKE_EXPORT_COMPILE_COMMANDS" (VStr "ON") defines else defines in
  let* platform := getitem cfg "platform" in
  let defines :=
    if py_eq platform "ios" then
      let defines := dict_set "CMAKE_OSX_SYSROOT" (get_ios_sdk_sysroot E) defines in
      let ios_team_id := settings_get E proj_dir "iosteam" in
      if py_truthy ios_team_id then dict_set "FIPS_IOS_TEAMID" ios_team_id defines
      else defines
    else defines in
  let defines :=
    if py_eq platform "osx"
    then dict_set "CMAKE_OSX_SYSROOT" (get_macos_sdk_sysroot E) defines else defines in
  let do_it := force in
  let* fs := get_fs in
  (if negb (isdir fs build_dir) then os_makedirs build_dir else ret tt) >>
  let* fs := get_fs in
  let do_it := if negb (isfile fs (build_dir +:+ "/CMakeCache.txt")) then true else do_it in
  if negb do_it then ret true else
  log.colored log.YELLOW ("=== generating: " +:+ py_str name) >>
  let* path := getitem cfg "path" in
  log.info ("config file: " +:+ py_str path) >>
  let* toolchain_path := config.get_toolchain E fips_dir proj_dir cfg in
  match truthy_path toolchain_path with
  | Some p => log.info ("Using Toolchain File: " +:+ p)
  | None => ret tt
  end >>
  let* build_tool := getitem cfg "build_tool" in
  (if py_eq build_tool "ninja"
   then ninja.prepare_ninja_tool E fips_dir build_dir else ret tt) >>
  let* cmake_result :=
    cmake.run_gen E cfg fips_dir proj_dir build_dir toolchain_path defines in
  (if py_eq build_tool "vscode_cmake"
   then call_tool E (vscode_write_workspace_settings fips_dir proj_dir cfg) >> ret tt
   else ret tt) >>
  (if py_eq build_tool "clion"
   then clion.write_workspace_settings E fips_dir proj_dir cfg else ret tt) >>
  ret cmake_result.

(** The body of the per-config loop of [gen]; it returns the new
    [num_valid_configs]. *)
Definition gen_body (E : Env) (fips_dir proj_dir : string) (cfg : config)
    (num_valid_configs : nat) : M nat :=
  (* check if config is valid *)
  let* (config_valid, _) := config.check_config_valid E fips_dir proj_dir cfg true in
  if config_valid : bool then
    let* ok := gen_project E fips_dir proj_dir cfg true in
    if ok : bool then ret (num_valid_configs + 1)
    else
      let* name := getitem cfg "name" in
      log.error ("failed to generate build files for config '" +:+ py_str name +:+ "'")
        (VBool false) >>
      ret num_valid_configs
  else
    let* name := getitem cfg "name" in
    log.error ("'" +:+ py_str name +:+ "' is not a valid config") (VBool false) >>
    ret num_valid_configs.

Fixpoint gen_loop (E : Env) (fips_dir proj_dir : string) (configs : list config)
    (num_valid_configs : nat) : M nat :=
  match configs with
  | [] => ret num_valid_configs
  | cfg :: rest =>
      let* num_valid_configs := gen_body E fips_dir proj_dir cfg num_valid_configs in
      gen_loop E fips_dir proj_dir rest num_valid_configs
  end.

(** generate build files with cmake *)
Definition gen (E : Env) (fips_dir proj_dir cfg_name : string) : M bool :=
  (* prepare *)
  external (fetch_imports E fips_dir proj_dir) >>
  external (ensure_valid_project_dir E proj_dir) >>
  external (gather_and_write_imports E fips_dir proj_dir cfg_name) >>
  (* load the config(s) *)
  let* configs := config.load E fips_dir proj_dir cfg_name in
  let* num_valid_configs :=
    match configs with
    | _ :: _ => gen_loop E fips_dir proj_dir configs 0
    | [] => log.error ("No configs found for '" +:+ cfg_name +:+ "'") fatal_default >> ret 0
    end in
  if negb (bool_decide (num_valid_configs = length configs)) then
    log.error (pretty (length configs - num_valid_configs) +:+ " out of "
               +:+ pretty (length configs) +:+ " configs failed!") fatal_default >>
    ret false
  else
    log.colored log.GREEN (pretty num_valid_configs +:+ " configs generated") >>
    ret true.

(** select and run build tool *)
Definition run_build_tool (E : Env) (fips_dir : string) (cfg : config)
    (target : option string) (build_dir : string) (num_jobs : pyval) : M bool :=
  let* build_tool := getitem cfg "build_tool" in
  if py_eq build_tool (make_name E) then
    call_tool E (make_run_build fips_dir target build_dir num_jobs)
  else if py_eq build_tool ninja.name then
    ninja.run_build E fips_dir target build_dir num_jobs
  else if py_eq build_tool (xcodebuild_name E) then
    let* build_type := getitem cfg "build_type" in
    call_tool E (xcodebuild_run_build fips_dir target build_type build_dir num_jobs)
  else
    let* build_type := getitem cfg "build_type" in
    cmake.run_build E fips_dir target build_type build_dir num_jobs.

(** The body of the per-config loop of [build]; it returns the new
    [num_valid_configs]. *)
Definition build_body (E : Env) (fips_dir proj_dir proj_name : string)
    (target : option string) (cfg : config) (num_valid_configs : nat) : M nat :=
  (* check if config is valid *)
  let* (config_valid, _) := config.check_config_valid E fips_dir proj_dir cfg true in
  if config_valid : bool then
    let* name := getitem cfg "name" in
    log.colored log.YELLOW ("=== building: " +:+ py_str name) >>
    let* generated := gen_project E fips_dir proj_dir cfg false in
    (if negb generated then
       log.error ("Failed to generate '" +:+ py_str name +:+ "' of project '"
                  +:+ proj_name +:+ "'") fatal_default
     else ret tt) >>
    let build_dir := get_build_dir E fips_dir proj_name name in
    let num_jobs := settings_get E proj_dir "jobs" in
    let* result := run_build_tool E fips_dir cfg target build_dir num_jobs in
    if result : bool then ret (num_valid_configs + 1)
    else
      log.error ("Failed to build config '" +:+ py_str name +:+ "' of project '"
                 +:+ proj_name +:+ "'") fatal_default >>
      ret num_valid_configs
  else
    let* name := getitem cfg "name" in
    log.error ("Config '" +:+ py_str name +:+ "' not valid in this environment")
      fatal_default >>
    ret num_valid_configs.

Fixpoint build_loop (E : Env) (fips_dir proj_dir proj_name : string)
    (target : option string) (configs : list config) (num_valid_configs : nat) : M nat :=
  match configs with
  | [] => ret num_valid_configs
  | cfg :: rest =>
      let* num_valid_configs :=
        build_body E fips_dir proj_dir proj_name target cfg num_valid_configs in
      build_loop E fips_dir proj_dir proj_name target rest num_valid_configs
  end.

(** perform a build of config(s) in project *)
Definition build (E : Env) (fips_dir proj_dir cfg_name : string) (target : option string)
    : M bool :=
  (* prepare *)
  external (fetch_imports E fips_dir proj_dir) >>
  let proj_name := get_project_name_from_dir E proj_dir in
  external (ensure_valid_project_dir E proj_dir) >>
  external (gather_and_write_imports E fips_dir proj_dir cfg_name) >>
  (* load the config(s) *)
  let* configs := config.load E fips_dir proj_dir cfg_name in
  let* num_valid_configs :=
    match configs with
    | _ :: _ => build_loop E fips_dir proj_dir proj_name target configs 0
    | [] =>
        log.error ("No valid configs found for '" +:+ cfg_name +:+ "'") fatal_default >>
        ret 0
    end in
  if negb (bool_decide (num_valid_configs = length configs)) then
    log.error (pretty (length configs - num_valid_configs) +:+ " out of "
               +:+ pretty (length configs) +:+ " configs failed!") fatal_default >>
    ret false
  else
    log.colored log.GREEN (pretty num_valid_configs +:+ " configs built") >>
    ret true.

(** The body of the per-config loop of [clean]; it returns the new
    [num_cleaned_configs]. *)
Definition clean_body (E : Env) (fips_dir proj_name : string) (cfg : config)
    (num_cleaned_configs : nat) : M nat :=
  let* name := getitem cfg "name" in
  let build_dir := get_build_dir E fips_dir proj_name name in
  let* fs := get_fs in
  let build_dir_exists := isdir fs build_dir in
  let deploy_dir := get_deploy_dir E fips_dir proj_name name in
  let deploy_dir_exists := isdir fs deploy_dir in
  let* num_cleaned_configs :=
    if build_dir_exists || deploy_dir_exists then
      log.colored log.YELLOW ("=== clean: " +:+ py_str name) >>
      ret (num_cleaned_configs + 1)
    else ret num_cleaned_configs in
  (if build_dir_exists then
     shutil_rmtree build_dir >> log.info ("  deleted '" +:+ build_dir +:+ "'")
   else ret tt) >>
  (if deploy_dir_exists then
     shutil_rmtree deploy_dir >> log.info ("  deleted '" +:+ deploy_dir +:+ "'")
   else ret tt) >>
  ret num_cleaned_configs.

Fixpoint clean_loop (E : Env) (fips_dir proj_name : string) (configs : list config)
    (num_cleaned_configs : nat) : M nat :=
  match configs with
  | [] => ret num_cleaned_configs
  | cfg :: rest =>
      let* num_cleaned_configs := clean_body E fips_dir proj_name cfg num_cleaned_configs in
      clean_loop E fips_dir proj_name rest num_cleaned_configs
  end.

(** clean build files; the function has no [return] statement, so a
    normal return yields [None]. *)
Definition clean (E : Env) (fips_dir proj_dir cfg_name : string) : M unit :=
  let proj_name := get_project_name_from_dir E proj_dir in
  let* configs := config.load E fips_dir proj_dir cfg_name in
  match configs with
  | _ :: _ =>
      let* num_cleaned_configs := clean_loop E fips_dir proj_name configs 0 in
      if bool_decide (num_cleaned_configs = 0) then
        log.colored log.YELLOW ("=== clean: nothing to clean for " +:+ cfg_name)
      else ret tt
  | [] => log.error ("No valid configs found for '" +:+ cfg_name +:+ "'") fatal_default
  end.

End project.
(** * Specification-level definitions *)

(** ** Toolchain resolution *)

(** Modelled on the specification's wording of the layered search: the
    candidate paths in priority order (the project's toolchain directory,
    each imported project's in import order, the fips installation's
    [cmake-toolchains]) and the first candidate that is a regular file. *)
Definition toolchain_layers (E : Env) (fips_dir proj_dir : string) : list string :=
  option_list (truthy_path (get_toolchains_dir E proj_dir))
  ++ omap (λ imp, truthy_path (get_toolchains_dir E imp.2))
          (get_all_imports_exports E fips_dir proj_dir).2.

Definition toolchain_candidates (E : Env) (fips_dir proj_dir toolchain : string)
    : list string :=
  ((λ dir, dir +:+ "/" +:+ toolchain) <$> toolchain_layers E fips_dir proj_dir)
  ++ [fips_dir +:+ "/cmake-toolchains/" +:+ toolchain].

Definition first_regular_file (fs : FS) (candidates : list string) : option string :=
  head (filter (λ p, isfile fs p = true) candidates).

(** The file name searched for: the override, else one built from the platform. *)
Definition toolchain_name (cfg : config) (platform : pyval) : string :=
  match cfg !! "cmake-toolchain" with
  | Some t => py_str t
  | None => py_str platform +:+ ".toolchain.cmake"
  end.

(** ** A small installation to run the functions on *)

Module Scenario.

Definition fips_dir : string := "/ws/fips".
Definition proj_dir : string := "/ws/proj".

(** An environment in which every tool is installed and every external
    step succeeds; the config files, their contents and the behaviour of
    the external tools vary with the scenario. *)
Definition env (imports : list (string * string)) (globs : string → list string)
    (yaml : string → yaml_result) (tools : tool_call → FS → bool * FS) : Env :=
  {| get_toolchains_dir := λ d, Some (d +:+ "/fips-files/toolchains");
     get_configs_dir := λ d, Some (d +:+ "/fips-files/configs");
     get_project_name_from_dir := λ d, (os_path_split d).2;
     get_build_dir := λ f proj cfg, "/ws/fips-build/" +:+ proj +:+ "/" +:+ py_str cfg;
     get_deploy_dir := λ f proj cfg, "/ws/fips-deploy/" +:+ proj +:+ "/" +:+ py_str cfg;
     ensure_valid_project_dir := λ _ fs, (Ret tt, fs);
     get_all_imports_exports := λ _ _, (true, imports);
     get_policy := λ _ _, VBool false;
     fetch_imports := λ _ _ fs, (Ret tt, fs);
     gather_and_write_imports := λ _ _ _ fs, (Ret tt, fs);
     settings_get := λ _ key, if bool_decide (key = "jobs") then VInt 3 else VNone;
     cmake_check_exists := λ _, true;
     make_check_exists := λ _, true;
     ninja_check_exists := λ _, true;
     xcodebuild_check_exists := λ _, true;
     vscode_check_exists := λ _, true;
     clion_check_exists := λ _, true;
     emscripten_check_exists := λ _, true;
     android_check_exists := λ _, true;
     make_name := "make";
     xcodebuild_name := "xcodebuild";
     get_ios_sdk_sysroot := VStr "/sdk/ios";
     get_macos_sdk_sysroot := VStr "/sdk/macos";
     glob := globs;
     yaml_load := yaml;
     platform_system := "Linux";
     items_of := λ _, inl TypeError;
     run_tool := tools |}.

Definition no_files : string → list string := λ _, [].
Definition no_yaml : string → yaml_result := λ _, YamlError None.
Definition tools_ok : tool_call → FS → bool * FS := λ _ fs, (true, fs).

Definition empty_fs : FS := mkFS ∅ ∅.
Definition start (fs : FS) : state := mkState [] fs [].

(** *** Toolchains: one imported project, the android toolchain shipped
    with fips only *)

Definition E_toolchain : Env := env [("dep", "/ws/dep")] no_files no_yaml tools_ok.

Definition android_cfg : config :=
  {[ "name" := VStr "android-make-debug"; "platform" := VStr "android" ]}.


Definition fs_base_toolchain : FS :=
  mkFS {[ "/ws/fips/cmake-toolchains" ]}
       {[ "/ws/fips/cmake-toolchains/android.toolchain.cmake" := "# android";
          "/ws/fips/cmake-toolchains/linux.toolchain.cmake" := "# linux" ]}.

(** *** Config files in the fips installation only *)

Definition doc (platform build_tool build_type : string) : config :=
  {[ "platform" := VStr platform; "build_tool" := VStr build_tool;
     "build_type" := VStr build_type ]}.

Definition glob_in (pattern : string) (paths : list string) : string → list string :=
  λ p, if bool_decide (p = pattern) then paths else [].

(** Three configs: [a] is fine, [b] names an unknown build tool, the
    build of [c] fails. *)
Definition yaml_three (path : string) : yaml_result :=
  if bool_decide (path = "/ws/fips/configs/a.yml") then YamlOk (doc "linux" "make" "Debug")
  else if bool_decide (path = "/ws/fips/configs/b.yml") then YamlOk (doc "linux" "scons" "Debug")
  else YamlOk (doc "linux" "make" "Release").

Definition tools_c_fails (c : tool_call) (fs : FS) : bool * FS :=
  match c with
  | make_run_build _ _ build_dir _ =>
      (negb (bool_decide (build_dir = "/ws/fips-build/proj/c")), fs)
  | shell _ cwd => (true, fs_write (cwd +:+ "/CMakeCache.txt") "# cache" fs)
  | _ => (true, fs)
  end.

Definition E_three : Env :=
  env [] (glob_in "/ws/fips/configs/*.yml"
            ["/ws/fips/configs/a.yml"; "/ws/fips/configs/b.yml"; "/ws/fips/configs/c.yml"])
      yaml_three tools_c_fails.

(** Two config files, the first of which is not valid YAML; [message] is
    what the exception object offers as its [message] attribute. *)
Definition yaml_malformed (message : option pyval) (path : string) : yaml_result :=
  if bool_decide (path = "/ws/fips/configs/a.yml") then YamlError message
  else YamlOk (doc "linux" "make" "Debug").

Definition E_malformed (message : option pyval) : Env :=
  env [] (glob_in "/ws/fips/configs/*.yml"
            ["/ws/fips/configs/a.yml"; "/ws/fips/configs/b.yml"])
      (yaml_malformed message) tools_ok.

(** One imported project whose config directory holds a file of the
    same name as one shipped with fips. *)
Definition glob_shadow (p : string) : list string :=
  if bool_decide (p = "/ws/dep/fips-files/configs/*.yml")
  then ["/ws/dep/fips-files/configs/linux-make-debug.yml"]
  else if bool_decide (p = "/ws/fips/configs/*.yml")
  then ["/ws/fips/configs/linux-make-debug.yml"; "/ws/fips/configs/osx-xcode-debug.yml"]
  else [].

Definition yaml_shadow (path : string) : yaml_result :=
  if bool_decide (path = "/ws/dep/fips-files/configs/linux-make-debug.yml")
  then YamlOk (doc "linux" "ninja" "Debug")
  else if bool_decide (path = "/ws/fips/configs/linux-make-debug.yml")
  then YamlOk (doc "linux" "make" "Debug")
  else YamlOk (doc "osx" "xcodebuild" "Debug").

Definition E_shadow : Env := env [("dep", "/ws/dep")] glob_shadow yaml_shadow tools_ok.






(** Loaded configs whose file lacks the [build_tool], the [platform] or
    the [build_type] key. *)
Definition cfg_no_build_tool : config :=
  config.patch "/ws/fips/configs/a.yml"
    {[ "platform" := VStr "linux"; "build_type" := VStr "Debug" ]}.

Definition cfg_no_platform : config :=
  config.patch "/ws/fips/configs/a.yml"
    {[ "build_tool" := VStr "make"; "build_type" := VStr "Debug" ]}.

Definition cfg_no_build_type : config :=
  config.patch "/ws/fips/configs/a.yml"
    {[ "platform" := VStr "linux"; "build_tool" := VStr "scons" ]}.

End Scenario.

(** ** Validation messages *)

(** The line [log.error] prints for a message. *)
Definition error_line (msg : string) : string :=
  log.RED +:+ "[ERROR]" +:+ log.DEF +:+ " " +:+ msg.


Definition missing_field_msg (path : pyval) (field : string) : string :=
  "missing field '" +:+ field +:+ "' in '" +:+ py_str path +:+ "'".






Definition printed (s : state) (lines : list string) : state :=
  mkState (st_out s ++ lines) (st_fs s) (st_calls s).

(** The line [log.colored] prints. *)
Definition colored_line (color msg : string) : string := color +:+ msg +:+ log.DEF.

(** ** Loading *)

(** The directories [get_config_dirs] returns, and the state it leaves:
    its only possible output is the warning about missing imports. *)
Definition config_dirs (E : Env) (fips_dir proj_dir : string) : list string :=
  (if bool_decide (fips_dir ≠ proj_dir) then
     if (get_all_imports_exports E fips_dir proj_dir).1
     then config.import_config_dirs E (get_all_imports_exports E fips_dir proj_dir).2
     else []
   else [])
  ++ [fips_dir +:+ "/configs"].

Definition dirs_warned (E : Env) (fips_dir proj_dir : string) (s : state) : state :=
  if bool_decide (fips_dir ≠ proj_dir) && negb (get_all_imports_exports E fips_dir proj_dir).1
  then printed s [log.YELLOW +:+ "[WARNING]" +:+ log.DEF +:+ " "
                  +:+ "missing import directories, please run 'fips fetch'"]
  else s.

(** The files [load] visits for a pattern in one directory, and in all
    directories, in the order it visits them. *)
Definition matched (E : Env) (pattern curDir : string) : list string :=
  glob E (curDir +:+ "/" +:+ pattern +:+ ".yml").

Definition scan (E : Env) (pattern : string) (dirs : list string) : list string :=
  dirs ≫= matched E pattern.

Definition parses (E : Env) (path : string) : Prop :=
  ∃ doc, yaml_load E path = YamlOk doc.

(** What one well-formed file does to the list of configs. *)
Definition add_path (E : Env) (configs : list config) (path : string) : list config :=
  match yaml_load E path with
  | YamlOk doc =>
      if config.name_taken configs (config.patch path doc) then configs
      else configs ++ [config.patch path doc]
  | YamlError _ => configs
  end.

Definition named (n : string) (cfg : config) : Prop := cfg !! "name" = Some (VStr n).

#[global] Instance named_dec n cfg : Decision (named n cfg).
Proof. unfold named. apply _. Defined.

(** ** Listing *)

(** The names [list] reports for one directory. *)
Definition listed_names (E : Env) (curDir : string) : list string :=
  merge_sort config.str_le (config.config_name <$> glob E (curDir +:+ "/*.yml")).

(** ** Generation *)







(** A computation that starts nothing outside. *)
Definition no_call {A} (m : M A) : Prop := ∀ s, st_calls (m s).2 = st_calls s.



(** * Properties *)

(** ** Toolchain resolution *)

Lemma first_regular_file_cons fs p l :
  first_regular_file fs (p :: l)
  = if isfile fs p then Some p else first_regular_file fs l.
Proof.
  unfold first_regular_file. rewrite filter_cons.
  destruct (isfile fs p); [rewrite decide_True by done|rewrite decide_False by done]; done.
Qed.

Lemma first_regular_file_app fs l1 l2 :
  first_regular_file fs (l1 ++ l2)
  = match first_regular_file fs l1 with
    | Some p => Some p
    | None => first_regular_file fs l2
    end.
Proof.
  induction l1 as [|p l1 IH]; [done|].
  rewrite <- app_comm_cons, !first_regular_file_cons.
  by destruct (isfile fs p).
Qed.

Lemma first_regular_file_none fs l :
  (∀ p, p ∈ l → isfile fs p = false) → first_regular_file fs l = None.
Proof.
  intros H. induction l as [|p l IH]; [done|].
  rewrite first_regular_file_cons, (H p) by left.
  apply IH. intros q Hq. apply H. by right.
Qed.

Lemma search_imported_spec E fs toolchain imps :
  config.search_imported E fs toolchain imps
  = first_regular_file fs
      ((λ dir, dir +:+ "/" +:+ toolchain)
         <$> omap (λ imp, truthy_path (get_toolchains_dir E imp.2)) imps).
Proof.
  induction imps as [|[n d] imps IH]; [done|].
  cbn [config.search_imported omap list_omap snd].
  destruct (truthy_path (get_toolchains_dir E d)) as [dir|]; [|exact IH].
  cbn [fmap list_fmap]. rewrite first_regular_file_cons.
  by destruct (isfile fs (dir +:+ "/" +:+ toolchain)).
Qed.

Lemma search_from_layers E fips_dir proj_dir fs tc :
  (if from_option (isfile fs) false
        match truthy_path (get_toolchains_dir E proj_dir) with
        | Some toolchain_dir => Some (toolchain_dir +:+ "/" +:+ tc)
        | None => None
        end
   then match truthy_path (get_toolchains_dir E proj_dir) with
        | Some toolchain_dir => Some (toolchain_dir +:+ "/" +:+ tc)
        | None => None
        end
   else match config.search_imported E fs tc (get_all_imports_exports E fips_dir proj_dir).2 with
        | Some p => Some p
        | None => if isfile fs (fips_dir +:+ "/cmake-toolchains/" +:+ tc)
                  then Some (fips_dir +:+ "/cmake-toolchains/" +:+ tc) else None
        end)
  = first_regular_file fs (toolchain_candidates E fips_dir proj_dir tc).
Proof.
  unfold toolchain_candidates, toolchain_layers.
  rewrite fmap_app, <- app_assoc, !first_regular_file_app, search_imported_spec.
  rewrite (first_regular_file_cons fs (fips_dir +:+ "/cmake-toolchains/" +:+ tc) []).
  destruct (truthy_path (get_toolchains_dir E proj_dir)) as [dir|];
    [|done].
  change (option_list (Some dir)) with [dir].
  cbn [fmap list_fmap from_option].
  rewrite first_regular_file_cons.
  by destruct (isfile fs (dir +:+ "/" +:+ tc)).
Qed.

Lemma get_toolchain_search E fips_dir proj_dir cfg platform s :
  cfg !! "platform" = Some platform →
  py_in platform config.native_platforms = false →
  config.get_toolchain E fips_dir proj_dir cfg s
  = (Ret (first_regular_file (st_fs s)
            (toolchain_candidates E fips_dir proj_dir (toolchain_name cfg platform))), s).
Proof.
  intros Hp Hn.
  rewrite <- search_from_layers.
  unfold config.get_toolchain, toolchain_name, bind, ret, getitem, get_fs.
  rewrite Hp, Hn.
  destruct (cfg !! "cmake-toolchain") as [t|]; cbn;
    destruct (from_option _ _ _); [done| |done|];
    destruct (config.search_imported _ _ _ _); try done;
    destruct (isfile _ _); done.
Qed.

(** C6.  For a config whose platform is not native, [get_toolchain]
    returns the first candidate that is a regular file, the candidates
    being the toolchain file name (the [cmake-toolchain] override if
    present, else [<platform>.toolchain.cmake]) in the project's toolchain
    directory, in each imported project's toolchain directory in import
    order, and last in the fips installation's [cmake-toolchains]; so a
    file found in no earlier candidate than position [i] gives candidate
    [i], a file only in the installation gives that path, and a file
    nowhere gives [None].  Nothing is printed and nothing changes. *)
Theorem get_toolchain_layered_search E fips_dir proj_dir cfg platform s :
  cfg !! "platform" = Some platform →
  py_in platform config.native_platforms = false →
  let toolchain := toolchain_name cfg platform in
  let candidates := toolchain_candidates E fips_dir proj_dir toolchain in
  let base := fips_dir +:+ "/cmake-toolchains/" +:+ toolchain in
  config.get_toolchain E fips_dir proj_dir cfg s
    = (Ret (first_regular_file (st_fs s) candidates), s)
  ∧ (∀ i p, candidates !! i = Some p → isfile (st_fs s) p = true →
       (∀ j q, j < i → candidates !! j = Some q → isfile (st_fs s) q = false) →
       config.get_toolchain E fips_dir proj_dir cfg s = (Ret (Some p), s))
  ∧ ((∀ dir, dir ∈ toolchain_layers E fips_dir proj_dir →
        isfile (st_fs s) (dir +:+ "/" +:+ toolchain) = false) →
     isfile (st_fs s) base = true →
     config.get_toolchain E fips_dir proj_dir cfg s = (Ret (Some base), s))
  ∧ ((∀ p, p ∈ candidates → isfile (st_fs s) p = false) →
     config.get_toolchain E fips_dir proj_dir cfg s = (Ret None, s)).
Proof.
  intros Hp Hn toolchain candidates base.
  pose proof (get_toolchain_search E fips_dir proj_dir cfg platform s Hp Hn) as Heq.
  fold toolchain in Heq. fold candidates in Heq.
  split; [exact Heq|]. rewrite Heq. split; [|split].
  - intros i p Hi Hf Hbefore. do 2 f_equal.
    clear Heq. generalize dependent i.
    induction candidates as [|c cs IH]; intros i Hi Hbefore; [done|].
    rewrite first_regular_file_cons. destruct i as [|i]; cbn in Hi.
    + injection Hi as ->. by rewrite Hf.
    + rewrite (Hbefore 0 c) by (done || lia).
      apply (IH i Hi). intros j q Hj Hq. apply (Hbefore (S j) q); [lia|done].
  - intros Hlayers Hbase. do 2 f_equal. subst candidates.
    unfold toolchain_candidates. rewrite first_regular_file_app.
    rewrite first_regular_file_none.
    + rewrite first_regular_file_cons. fold base. by rewrite Hbase.
    + intros p Hin. apply list_elem_of_fmap in Hin as (dir & -> & Hdir). by apply Hlayers.
  - intros Hnone. by rewrite first_regular_file_none.
Qed.

Lemma get_toolchain_layered_search_witness :
  Scenario.android_cfg !! "platform" = Some (VStr "android")
  ∧ py_in (VStr "android") config.native_platforms = false
  ∧ config.get_toolchain Scenario.E_toolchain Scenario.fips_dir Scenario.proj_dir
      Scenario.android_cfg (Scenario.start Scenario.fs_base_toolchain)
    = (Ret (Some "/ws/fips/cmake-toolchains/android.toolchain.cmake"),
       Scenario.start Scenario.fs_base_toolchain).
Proof.
  split; [reflexivity|]. split; [reflexivity|].
  apply (get_toolchain_layered_search Scenario.E_toolchain Scenario.fips_dir
           Scenario.proj_dir Scenario.android_cfg (VStr "android")
           (Scenario.start Scenario.fs_base_toolchain) eq_refl eq_refl).
  - intros dir Hdir. vm_compute in Hdir.
    apply list_elem_of_In in Hdir. destruct Hdir as [<-|[<-|[]]]; reflexivity.
  - reflexivity.
Defined.

(** ** Validation *)


Lemma printed_app s l1 l2 : printed (printed s l1) l2 = printed s (l1 ++ l2).
Proof. unfold printed. cbn. by rewrite app_assoc. Qed.


Lemma check_required_spec cfg path fields valid msgs s :
  cfg !! "path" = Some path →
  config.check_required cfg fields valid msgs s
  = (Ret (valid && bool_decide (filter (λ field, cfg !! field = None) fields = []),
          msgs ++ (missing_field_msg path <$> filter (λ field, cfg !! field = None) fields)), s).
Proof.
  intros Hpath. revert valid msgs.
  induction fields as [|f fields IH]; intros valid msgs.
  - cbn. unfold ret. by rewrite andb_true_r, app_nil_r.
  - cbn [config.check_required]. rewrite filter_cons.
    destruct (cfg !! f) eqn:Hf.
    + rewrite decide_False by done. apply IH.
    + rewrite decide_True by done. unfold bind, getitem. rewrite Hpath. unfold ret.
      rewrite IH. cbn. rewrite andb_false_r, <- app_assoc. done.
Qed.










(** ** The build verb *)

Lemma log_error_fatal msg s :
  log.error msg fatal_default s = (Raise (SystemExit 10), printed s [error_line msg]).
Proof. reflexivity. Qed.

Lemma build_body_count E fips_dir proj_dir proj_name target cfg n s m s' :
  project.build_body E fips_dir proj_dir proj_name target cfg n s = (Ret m, s') →
  m = n + 1.
Proof.
  unfold project.build_body, bind. intros H.
  destruct (config.check_config_valid _ _ _ _ _ _) as [[[[] msgs]|e] s1]; [| |done].
  - destruct (getitem cfg "name" s1) as [[name|e] s2]; [|done].
    destruct (log.colored _ _ s2) as [[[]|e] s3]; [|done].
    destruct (project.gen_project _ _ _ _ _ s3) as [[[]|e] s4]; [| |done]; cbn in H.
    + destruct (project.run_build_tool _ _ _ _ _ _ _) as [[[]|e] s5]; [| |done].
      * by injection H as <- _.
      * done.
    + done.
  - destruct (getitem cfg "name" s1) as [[name|e] s2]; done.
Qed.

Lemma build_loop_count E fips_dir proj_dir proj_name target configs n s m s' :
  project.build_loop E fips_dir proj_dir proj_name target configs n s = (Ret m, s') →
  m = n + length configs.
Proof.
  revert n s. induction configs as [|cfg configs IH]; intros n s; cbn.
  - intros [= <- _]. lia.
  - unfold bind.
    destruct (project.build_body _ _ _ _ _ _ _ _) as [[k|e] s1] eqn:Hb; [|done].
    intros H. apply IH in H. apply build_body_count in Hb. lia.
Qed.

(** Whatever the environment, [build] never returns [False]: it returns
    [True] or leaves by an exception, [SystemExit] included. *)
Lemma build_true_or_raises E fips_dir proj_dir cfg_name target s :
  (project.build E fips_dir proj_dir cfg_name target s).1 = Ret true
  ∨ ∃ e, (project.build E fips_dir proj_dir cfg_name target s).1 = Raise e.
Proof.
  unfold project.build, bind.
  destruct (external _ s) as [[[]|e] s1]; [|right; by eexists].
  destruct (external _ s1) as [[[]|e] s2]; [|right; by eexists].
  destruct (external _ s2) as [[[]|e] s3]; [|right; by eexists].
  destruct (config.load _ _ _ _ s3) as [[configs|e] s4]; [|right; by eexists].
  destruct configs as [|cfg configs]; [right; by eexists|].
  destruct (project.build_loop _ _ _ _ _ _ _ s4) as [[m|e] s5] eqn:Hl; [|right; by eexists].
  apply build_loop_count in Hl. subst m.
  rewrite bool_decide_eq_true_2 by done. left. reflexivity.
Qed.

(** C1.  [build] on three matched configs [a], [b], [c], where [a]
    builds, [b] fails validation and the build step of [c] would fail:
    the run ends with [SystemExit(10)] at [b], right after the line
    saying that [b] is not valid; [c] is never looked at, no tool is
    called for it, and no line counting 2 failures out of 3 is printed. *)
Theorem build_exits_at_first_failing_config :
  let r := project.build Scenario.E_three Scenario.fips_dir Scenario.proj_dir "*" None
             (Scenario.start Scenario.empty_fs) in
  r.1 = Raise (SystemExit 10)
  ∧ st_out r.2
    = [ colored_line log.YELLOW "=== building: a";
        colored_line log.YELLOW "=== generating: a";
        "config file: /ws/fips/configs/a.yml";
        "cmake -DCMAKE_BUILD_TYPE=Debug -DFIPS_CONFIG=a -DFIPS_USE_CCACHE=OFF"
        +:+ " -DFIPS_AUTO_IMPORT=ON -B/ws/fips-build/proj/a -H/ws/proj";
        error_line "invalid build_tool name 'scons' in '/ws/fips/configs/b.yml'";
        error_line "build tool 'scons' not found";
        error_line "Config 'b' not valid in this environment" ]
  ∧ (error_line "2 out of 3 configs failed!" ∉ st_out r.2)
  ∧ st_calls r.2
    = [ shell ("cmake -DCMAKE_BUILD_TYPE=Debug -DFIPS_CONFIG=a -DFIPS_USE_CCACHE=OFF"
               +:+ " -DFIPS_AUTO_IMPORT=ON -B/ws/fips-build/proj/a -H/ws/proj")
          "/ws/fips-build/proj/a";
        make_run_build "/ws/fips" None "/ws/fips-build/proj/a" (VInt 3) ].
Proof.
  cbv zeta. split; [by vm_compute|]. split; [by vm_compute|]. split; [|by vm_compute].
  apply (bool_decide_unpack _). by vm_compute.
Qed.

(** The sibling verb [gen] on the same three configs passes
    [fatal=False] for the per-config errors: it goes on to [c] after [b]
    and prints the count before it exits. *)
Lemma gen_counts_failures :
  let r := project.gen Scenario.E_three Scenario.fips_dir Scenario.proj_dir "*"
             (Scenario.start Scenario.empty_fs) in
  r.1 = Raise (SystemExit 10)
  ∧ st_out r.2
    = [ colored_line log.YELLOW "=== generating: a";
        "config file: /ws/fips/configs/a.yml";
        "cmake -DCMAKE_BUILD_TYPE=Debug -DFIPS_CONFIG=a -DFIPS_USE_CCACHE=OFF"
        +:+ " -DFIPS_AUTO_IMPORT=ON -B/ws/fips-build/proj/a -H/ws/proj";
        error_line "invalid build_tool name 'scons' in '/ws/fips/configs/b.yml'";
        error_line "build tool 'scons' not found";
        error_line "'b' is not a valid config";
        colored_line log.YELLOW "=== generating: c";
        "config file: /ws/fips/configs/c.yml";
        "cmake -DCMAKE_BUILD_TYPE=Release -DFIPS_CONFIG=c -DFIPS_USE_CCACHE=OFF"
        +:+ " -DFIPS_AUTO_IMPORT=ON -B/ws/fips-build/proj/c -H/ws/proj";
        error_line "1 out of 3 configs failed!" ].
Proof. cbv zeta. split; by vm_compute. Qed.

(** ** Loading *)

Lemma load_paths_malformed_raises E path rest configs s :
  yaml_load E path = YamlError None →
  config.load_paths E (path :: rest) configs s = (Raise (AttributeError "message"), s).
Proof. intros H. cbn. by rewrite H. Qed.

Lemma load_paths_malformed_exits E path rest configs message s :
  yaml_load E path = YamlError (Some message) →
  py_truthy message = true →
  config.load_paths E (path :: rest) configs s
  = (Raise (SystemExit 10), printed s [error_line "YML parse error: {}"]).
Proof.
  intros H Ht. cbn. rewrite H. unfold bind, config.getattr_message, ret, log.error, bind.
  cbn. by rewrite Ht.
Qed.

(** C4.  [load] on a directory whose first matched file [a.yml] is not
    valid YAML and whose second file [b.yml] is fine: when the exception
    object has no [message] attribute, the handler itself raises
    [AttributeError] and nothing at all is printed; when it has a
    non-empty one, that value lands in [log.error]'s [fatal] parameter
    and the run ends with [SystemExit(10)] after the unformatted line.
    Either way no configs are returned and [b.yml] is never loaded. *)
Theorem load_stops_at_malformed_file :
  config.load (Scenario.E_malformed None) Scenario.fips_dir Scenario.proj_dir "*"
    (Scenario.start Scenario.empty_fs)
  = (Raise (AttributeError "message"), Scenario.start Scenario.empty_fs)
  ∧ config.load (Scenario.E_malformed (Some (VStr "mapping values are not allowed here")))
      Scenario.fips_dir Scenario.proj_dir "*" (Scenario.start Scenario.empty_fs)
    = (Raise (SystemExit 10),
       printed (Scenario.start Scenario.empty_fs) [error_line "YML parse error: {}"]).
Proof. split; by vm_compute. Qed.

(** ** Validation of configs with missing fields *)

Lemma check_config_valid_no_platform E fips_dir proj_dir cfg print_errors path s :
  cfg !! "path" = Some path →
  cfg !! "platform" = None →
  config.check_config_valid E fips_dir proj_dir cfg print_errors s
  = (Raise (KeyError "platform"), s).
Proof.
  intros Hpath Hplat. unfold config.check_config_valid. unfold bind at 1.
  rewrite (check_required_spec cfg path _ _ _ _ Hpath).
  unfold bind, getitem. by rewrite Hplat.
Qed.

Lemma check_config_valid_no_build_tool E fips_dir proj_dir cfg print_errors path platform s :
  cfg !! "path" = Some path →
  cfg !! "platform" = Some platform →
  cfg !! "build_tool" = None →
  config.check_config_valid E fips_dir proj_dir cfg print_errors s
  = (Raise (KeyError "build_tool"), s).
Proof.
  intros Hpath Hplat Htool. unfold config.check_config_valid. unfold bind at 1.
  rewrite (check_required_spec cfg path _ _ _ _ Hpath).
  unfold bind, getitem. rewrite Hplat, Htool. unfold ret.
  by destruct (config.check_sdk E fips_dir platform).
Qed.

(** C5.  [check_config_valid] on loaded configs with a missing field:
    for a file lacking [build_tool], and for one lacking [platform], the
    call raises [KeyError] at the first check that reads the field, so no
    [(valid, messages)] pair is returned and nothing is printed; only for
    a field that no later check reads, as [build_type], does the call
    return invalid with one message for the field next to the messages of
    the other failing checks. *)
Theorem check_config_valid_missing_field_raises :
  config.check_config_valid Scenario.E_three Scenario.fips_dir Scenario.proj_dir
    Scenario.cfg_no_build_tool true (Scenario.start Scenario.empty_fs)
  = (Raise (KeyError "build_tool"), Scenario.start Scenario.empty_fs)
  ∧ config.check_config_valid Scenario.E_three Scenario.fips_dir Scenario.proj_dir
      Scenario.cfg_no_platform true (Scenario.start Scenario.empty_fs)
    = (Raise (KeyError "platform"), Scenario.start Scenario.empty_fs)
  ∧ (config.check_config_valid Scenario.E_three Scenario.fips_dir Scenario.proj_dir
       Scenario.cfg_no_build_type false (Scenario.start Scenario.empty_fs)).1
    = Ret (false, [ "missing field 'build_type' in '/ws/fips/configs/a.yml'";
                    "invalid build_tool name 'scons' in '/ws/fips/configs/a.yml'";
                    "build tool 'scons' not found" ]).
Proof. split; [|split]; by vm_compute. Qed.

(** ** Shadowing of config names across directories *)

Lemma get_config_dirs_spec E fips_dir proj_dir s :
  config.get_config_dirs E fips_dir proj_dir s
  = (Ret (config_dirs E fips_dir proj_dir), dirs_warned E fips_dir proj_dir s).
Proof.
  unfold config.get_config_dirs, config_dirs, dirs_warned, bind, ret.
  destruct (bool_decide (fips_dir ≠ proj_dir)); [|done].
  destruct (get_all_imports_exports E fips_dir proj_dir) as [[] result]; cbn; [done|].
  unfold printed. cbn. done.
Qed.

Lemma load_paths_parsed E paths configs s :
  Forall (parses E) paths →
  config.load_paths E paths configs s = (Ret (foldl (add_path E) configs paths), s).
Proof.
  intros Hok. revert configs. induction Hok as [|p paths [doc Hdoc] _ IH]; intros configs.
  - done.
  - cbn. unfold add_path at 2. rewrite Hdoc.
    destruct (config.name_taken configs _); apply IH.
Qed.

Lemma load_dirs_parsed E pattern dirs configs s :
  Forall (parses E) (scan E pattern dirs) →
  config.load_dirs E pattern dirs configs s
  = (Ret (foldl (add_path E) configs (scan E pattern dirs)), s).
Proof.
  revert configs. induction dirs as [|d dirs IH]; intros configs Hok; [done|].
  unfold scan in Hok. cbn in Hok. apply Forall_app in Hok as [Hd Hrest].
  cbn [config.load_dirs]. unfold bind.
  fold (matched E pattern d). rewrite (load_paths_parsed _ _ _ _ Hd).
  rewrite (IH _ Hrest). unfold scan. cbn. by rewrite foldl_app.
Qed.

Lemma patch_name path doc : named (config.config_name path) (config.patch path doc).
Proof.
  unfold named, config.patch, config.config_name.
  destruct (os_path_split path) as [folder fname]. cbn [snd].
  unfold config.setdefault.
  repeat case_match; by simplify_map_eq.
Qed.

Lemma name_taken_spec configs cfg n :
  named n cfg →
  config.name_taken configs cfg = true ↔ Exists (named n) configs.
Proof.
  intros Hn. unfold config.name_taken. rewrite existsb_exists, Exists_exists.
  split; intros (c & Hin & Hc); exists c.
  - split; [by apply list_elem_of_In|].
    apply bool_decide_eq_true_1 in Hc. unfold named. by rewrite Hc.
  - split; [by apply list_elem_of_In|].
    apply bool_decide_eq_true_2. unfold named in *. by rewrite Hc.
Qed.

Lemma add_path_prefix E configs path : ∃ ext, add_path E configs path = configs ++ ext.
Proof.
  unfold add_path. destruct (yaml_load E path); [|exists []; by rewrite app_nil_r].
  destruct (config.name_taken _ _); [exists []; by rewrite app_nil_r|by eexists].
Qed.

Lemma foldl_add_path_prefix E paths configs :
  ∃ ext, foldl (add_path E) configs paths = configs ++ ext.
Proof.
  revert configs. induction paths as [|p paths IH]; intros configs.
  - exists []. by rewrite app_nil_r.
  - cbn. destruct (add_path_prefix E configs p) as [e1 ->].
    destruct (IH (configs ++ e1)) as [e2 ->]. exists (e1 ++ e2). by rewrite app_assoc.
Qed.

(** No two loaded configs share a name. *)
Lemma foldl_add_path_NoDup E paths configs :
  NoDup ((λ c : config, c !! "name") <$> configs) →
  NoDup ((λ c : config, c !! "name") <$> foldl (add_path E) configs paths).
Proof.
  revert configs. induction paths as [|p paths IH]; intros configs Hnd; [done|].
  cbn. apply IH. unfold add_path.
  destruct (yaml_load E p) as [doc|]; [|done].
  destruct (config.name_taken configs _) eqn:Ht; [done|].
  rewrite fmap_app. cbn. apply NoDup_app. split; [done|]. split; [|apply NoDup_singleton].
  intros x Hx ->%list_elem_of_singleton.
  apply list_elem_of_fmap in Hx as (c & Hc & Hin).
  assert (config.name_taken configs (config.patch p doc) = true); [|congruence].
  apply (name_taken_spec _ _ _ (patch_name p doc)). apply Exists_exists.
  exists c. split; [done|]. unfold named. rewrite <- Hc. apply patch_name.
Qed.

(** The first file of a name is the one that is kept. *)
Lemma foldl_add_path_first E pre p post doc configs :
  yaml_load E p = YamlOk doc →
  Forall (λ q, config.config_name q ≠ config.config_name p) pre →
  Forall (λ c, ¬ named (config.config_name p) c) configs →
  config.patch p doc ∈ foldl (add_path E) configs (pre ++ p :: post).
Proof.
  intros Hdoc Hpre. revert configs.
  induction Hpre as [|q pre Hq _ IH]; intros configs Hcfg.
  - cbn. unfold add_path at 2. rewrite Hdoc.
    destruct (config.name_taken configs _) eqn:Ht.
    + apply (name_taken_spec _ _ _ (patch_name p doc)) in Ht.
      apply Exists_exists in Ht as (c & Hin & Hc).
      rewrite Forall_forall in Hcfg. by destruct (Hcfg c Hin).
    + destruct (foldl_add_path_prefix E post (configs ++ [config.patch p doc])) as [ext ->].
      set_solver.
  - cbn. apply IH. unfold add_path.
    destruct (yaml_load E q) as [docq|]; [|done].
    destruct (config.name_taken configs _); [done|].
    apply Forall_app. split; [done|]. apply Forall_singleton.
    intros Hn. pose proof (patch_name q docq) as Hq'. unfold named in *.
    rewrite Hq' in Hn. by injection Hn.
Qed.

Lemma filter_named_none (l : list config) n :
  (∀ x, x ∈ l → ¬ named n x) → filter (named n) l = [].
Proof.
  intros H. induction l as [|x l IH]; [done|].
  rewrite filter_cons, decide_False by (apply H; left).
  apply IH. intros y Hy. apply H. by right.
Qed.

Lemma filter_unique_name (l : list config) (c : config) n :
  NoDup ((λ c : config, c !! "name") <$> l) →
  c ∈ l → named n c →
  filter (named n) l = [c].
Proof.
  intros Hnd Hin Hn. induction l as [|x l IH]; [by apply elem_of_nil in Hin|].
  cbn in Hnd. apply NoDup_cons in Hnd as [Hx Hnd]. rewrite filter_cons.
  apply elem_of_cons in Hin as [<-|Hin].
  - rewrite decide_True by done. f_equal.
    apply filter_named_none. intros y Hy Hyn. apply Hx.
    apply list_elem_of_fmap. exists y. split; [|done].
    unfold named in *. by rewrite Hn, Hyn.
  - rewrite decide_False; [by apply IH|].
    intros Hxn. apply Hx. apply list_elem_of_fmap. exists c. split; [|done].
    unfold named in *. by rewrite Hn, Hxn.
Qed.

(** A list either holds no path of a given name or splits at the first one. *)
Lemma first_of_name (n : string) (l : list string) :
  Forall (λ q, config.config_name q ≠ n) l
  ∨ ∃ pre p post, l = pre ++ p :: post ∧ config.config_name p = n
                  ∧ Forall (λ q, config.config_name q ≠ n) pre.
Proof.
  induction l as [|x l IH]; [by left|].
  destruct (decide (config.config_name x = n)) as [Hx|Hx].
  - right. exists [], x, l. by split_and!.
  - destruct IH as [IH|(pre & p & post & -> & Hp & Hpre)].
    + left. by constructor.
    + right. exists (x :: pre), p, post. split_and!; [done|done|]. by constructor.
Qed.

(** The first file of a name in the whole scan lies in a directory that
    comes no later than any directory holding a file of that name. *)
Lemma first_of_name_layer E pattern n dirs i d1 p1 :
  dirs !! i = Some d1 →
  p1 ∈ matched E pattern d1 →
  config.config_name p1 = n →
  ∃ k d pre p post,
    k ≤ i ∧ dirs !! k = Some d ∧ p ∈ matched E pattern d ∧ config.config_name p = n
    ∧ scan E pattern dirs = pre ++ p :: post
    ∧ Forall (λ q, config.config_name q ≠ n) pre.
Proof.
  revert i. induction dirs as [|d dirs IH]; intros i Hi Hp1 Hn; [done|].
  unfold scan. cbn [mbind list_bind]. fold (scan E pattern dirs).
  destruct (first_of_name n (matched E pattern d))
    as [Hnone|(pre & p & post & Hsplit & Hp & Hpre)].
  - destruct i as [|i]; cbn in Hi.
    + injection Hi as ->. rewrite Forall_forall in Hnone. by destruct (Hnone p1 Hp1).
    + destruct (IH i Hi Hp1 Hn) as (k & d' & pre & p & post & Hk & Hd' & Hin & Hp & Hs & Hpre).
      exists (S k), d', (matched E pattern d ++ pre), p, post.
      split_and!; [lia|done|done|done| |].
      * rewrite Hs. by rewrite app_assoc.
      * by apply Forall_app.
  - exists 0, d, pre, p, (post ++ scan E pattern dirs).
    split_and!; [lia|done| |done| |done].
    + rewrite Hsplit. set_solver.
    + rewrite Hsplit. by rewrite <- app_assoc.
Qed.

(** C2.  When two directories of [get_config_dirs], the one at position
    [i] before the one at position [j], each hold a matched file of the
    same derived name (and every matched file parses), [load] returns
    configs among which exactly one bears that name: the one read from
    the first file of that name in visiting order, which lies in a
    directory at a position no later than [i].  Loading prints nothing:
    the state is the one [get_config_dirs] leaves. *)
Theorem load_first_layer_wins E fips_dir proj_dir pattern s i j d1 d2 p1 p2 :
  let dirs := config_dirs E fips_dir proj_dir in
  dirs !! i = Some d1 →
  dirs !! j = Some d2 →
  i < j →
  p1 ∈ matched E pattern d1 →
  p2 ∈ matched E pattern d2 →
  config.config_name p1 = config.config_name p2 →
  Forall (parses E) (scan E pattern dirs) →
  ∃ configs k d pre p post doc,
    config.load E fips_dir proj_dir pattern s
      = (Ret configs, dirs_warned E fips_dir proj_dir s)
    ∧ filter (named (config.config_name p1)) configs = [config.patch p doc]
    ∧ yaml_load E p = YamlOk doc
    ∧ config.config_name p = config.config_name p1
    ∧ k ≤ i ∧ dirs !! k = Some d ∧ p ∈ matched E pattern d
    ∧ scan E pattern dirs = pre ++ p :: post
    ∧ Forall (λ q, config.config_name q ≠ config.config_name p1) pre.
Proof.
  intros dirs Hi Hj Hij Hp1 Hp2 Hname Hok.
  destruct (first_of_name_layer E pattern (config.config_name p1) dirs i d1 p1 Hi Hp1 eq_refl)
    as (k & d & pre & p & post & Hk & Hd & Hin & Hp & Hs & Hpre).
  assert (Hparse : parses E p).
  { rewrite Forall_forall in Hok. apply Hok. rewrite Hs. set_solver. }
  destruct Hparse as [doc Hdoc].
  exists (foldl (add_path E) [] (scan E pattern dirs)), k, d, pre, p, post, doc.
  split; [|split; [|by split_and!]].
  - unfold config.load, bind. rewrite get_config_dirs_spec.
    fold dirs. by rewrite (load_dirs_parsed _ _ _ _ _ Hok).
  - apply filter_unique_name.
    + apply foldl_add_path_NoDup. constructor.
    + rewrite Hs. apply foldl_add_path_first; [done| |done].
      by rewrite Hp.
    + rewrite <- Hp. apply patch_name.
Qed.

Lemma load_first_layer_wins_witness :
  ∃ configs,
    config.load Scenario.E_shadow Scenario.fips_dir Scenario.proj_dir "*"
      (Scenario.start Scenario.empty_fs)
    = (Ret configs, Scenario.start Scenario.empty_fs)
    ∧ filter (named "linux-make-debug") configs
      = [config.patch "/ws/dep/fips-files/configs/linux-make-debug.yml"
           (Scenario.doc "linux" "ninja" "Debug")].
Proof.
  destruct (load_first_layer_wins Scenario.E_shadow Scenario.fips_dir Scenario.proj_dir "*"
              (Scenario.start Scenario.empty_fs) 0 1
              "/ws/dep/fips-files/configs" "/ws/fips/configs"
              "/ws/dep/fips-files/configs/linux-make-debug.yml"
              "/ws/fips/configs/linux-make-debug.yml")
    as (configs & k & d & pre & p & post & doc & Hload & Hfilter & Hdoc & _ & Hk & Hd & Hin & _).
  - reflexivity.
  - reflexivity.
  - lia.
  - vm_compute. left.
  - vm_compute. left.
  - reflexivity.
  - vm_compute. repeat constructor; eexists; reflexivity.
  - exists configs. split; [exact Hload|].
    assert (k = 0) as -> by lia.
    injection Hd as <-.
    vm_compute in Hin. apply list_elem_of_In in Hin. destruct Hin as [<-|[]].
    vm_compute in Hdoc. injection Hdoc as <-.
    exact Hfilter.
Defined.

(** ** Listing *)

#[local] Instance str_le_total : Total config.str_le.
Proof. intros a b. apply String.leb_total. Qed.

Lemma dict_alter_alter {V} (f g : V → V) k (d : list (string * V)) :
  dict_alter f k (dict_alter g k d) = dict_alter (f ∘ g) k d.
Proof.
  induction d as [|[k' v'] d IH]; [done|]. cbn [dict_alter].
  destruct (bool_decide (k' = k)) eqn:Hk; cbn [dict_alter]; rewrite Hk; [done|].
  by rewrite IH.
Qed.

Lemma dict_alter_set {V} (f : V → V) k v (d : list (string * V)) :
  dict_alter f k (dict_set k v d) = dict_set k (f v) d.
Proof.
  induction d as [|[k' v'] d IH]; cbn [dict_alter dict_set].
  - by rewrite bool_decide_eq_true_2.
  - destruct (bool_decide (k' = k)) eqn:Hk; cbn [dict_alter].
    + by rewrite bool_decide_eq_true_2.
    + rewrite Hk. by rewrite IH.
Qed.

Lemma dict_alter_ext {V} (f g : V → V) k (d : list (string * V)) :
  (∀ v, f v = g v) → dict_alter f k d = dict_alter g k d.
Proof.
  intros H. induction d as [|[k' v'] d IH]; [done|]. cbn [dict_alter].
  destruct (bool_decide (k' = k)); [by rewrite H|by rewrite IH].
Qed.

Lemma append_names_alter curDir paths res :
  config.append_names curDir paths res
  = dict_alter (λ names, names ++ (config.config_name <$> paths)) curDir res.
Proof.
  revert res. induction paths as [|p paths IH]; intros res.
  - cbn [config.append_names fmap list_fmap].
    induction res as [|[k v] res IHr]; [done|]. cbn [dict_alter].
    destruct (bool_decide (k = curDir)); [by rewrite app_nil_r|by rewrite <- IHr].
  - cbn [config.append_names]. rewrite IH, dict_alter_alter.
    apply dict_alter_ext. intros v. cbn [compose fmap list_fmap].
    by rewrite <- app_assoc.
Qed.

Lemma list_dirs_fold E dirs res :
  config.list_dirs E dirs res
  = foldl (λ res curDir, dict_set curDir (listed_names E curDir) res) res dirs.
Proof.
  revert res. induction dirs as [|d dirs IH]; intros res; [done|].
  cbn [config.list_dirs foldl]. rewrite IH. f_equal.
  by rewrite append_names_alter, dict_alter_alter, dict_alter_set.
Qed.

Lemma dict_get_set {V} k k' (v : V) d :
  dict_get k' (dict_set k v d) = if bool_decide (k = k') then Some v else dict_get k' d.
Proof.
  induction d as [|[k0 v0] d IH]; cbn [dict_get dict_set].
  - done.
  - destruct (decide (k0 = k)) as [->|Hne].
    + rewrite (bool_decide_eq_true_2 (k = k)) by done. cbn [dict_get].
      by destruct (bool_decide (k = k')).
    + rewrite (bool_decide_eq_false_2 (k0 = k)) by done. cbn [dict_get]. rewrite IH.
      destruct (decide (k0 = k')) as [->|Hne'].
      * rewrite (bool_decide_eq_true_2 (k' = k')) by done.
        by rewrite (bool_decide_eq_false_2 (k = k')) by congruence.
      * by rewrite (bool_decide_eq_false_2 (k0 = k')) by done.
Qed.

Lemma dict_set_keys {V} k (v : V) d :
  (dict_set k v d).*1 = if decide (k ∈ d.*1) then d.*1 else d.*1 ++ [k].
Proof.
  induction d as [|[k0 v0] d IH]; cbn [dict_set fmap list_fmap fst]; [done|].
  destruct (bool_decide (k0 = k)) eqn:H0; cbn [fmap list_fmap fst].
  - apply bool_decide_eq_true_1 in H0 as ->. rewrite decide_True by left. done.
  - apply bool_decide_eq_false_1 in H0. rewrite IH.
    destruct (decide (k ∈ d.*1)).
    + rewrite decide_True by (by right). done.
    + rewrite decide_False; [done|]. intros [->|]%elem_of_cons; done.
Qed.

Lemma fold_dict_set_get {V} (f : string → V) dirs res d :
  dict_get d (foldl (λ res curDir, dict_set curDir (f curDir) res) res dirs)
  = if decide (d ∈ dirs) then Some (f d) else dict_get d res.
Proof.
  revert res. induction dirs as [|x dirs IH]; intros res; cbn.
  - done.
  - rewrite IH, dict_get_set.
    destruct (decide (d ∈ dirs)).
    + rewrite decide_True by (by right). done.
    + destruct (bool_decide (x = d)) eqn:Hx.
      * apply bool_decide_eq_true_1 in Hx as ->. rewrite decide_True by left. done.
      * apply bool_decide_eq_false_1 in Hx. rewrite decide_False; [done|].
        intros [->|]%elem_of_cons; done.
Qed.

Lemma fold_dict_set_keys {V} (f : string → V) dirs res :
  ∃ ks, (foldl (λ res curDir, dict_set curDir (f curDir) res) res dirs).*1 = res.*1 ++ ks
        ∧ ks `sublist_of` dirs
        ∧ (NoDup res.*1 → NoDup (res.*1 ++ ks)).
Proof.
  revert res. induction dirs as [|x dirs IH]; intros res; cbn.
  - exists []. rewrite app_nil_r. split_and!; [done|done|done].
  - destruct (IH (dict_set x (f x) res)) as (ks & Hk & Hsub & Hnd).
    rewrite dict_set_keys in Hk, Hnd.
    destruct (decide (x ∈ res.*1)).
    + exists ks. split_and!; [done|by apply sublist_cons|done].
    + exists (x :: ks). rewrite <- app_assoc in Hk, Hnd. split_and!; [done|by apply sublist_skip|].
      intros Hres. apply Hnd. apply NoDup_app. split_and!; [done| |apply NoDup_singleton].
      by intros y Hy ->%list_elem_of_singleton.
Qed.

(** C10.  [list] does not look at its pattern: any two patterns give the
    same result in the same state.  The result has one entry per config
    directory, in the order of [get_config_dirs], each with the sorted
    names of the files matched by [*.yml] in that directory. *)
Theorem list_ignores_pattern E fips_dir proj_dir p q s :
  config.list E fips_dir proj_dir p s = config.list E fips_dir proj_dir q s
  ∧ ∃ res,
      config.list E fips_dir proj_dir p s = (Ret res, dirs_warned E fips_dir proj_dir s)
      ∧ NoDup res.*1
      ∧ res.*1 `sublist_of` config_dirs E fips_dir proj_dir
      ∧ (∀ d, d ∈ config_dirs E fips_dir proj_dir →
           ∃ names, dict_get d res = Some names
                    ∧ Sorted config.str_le names
                    ∧ names ≡ₚ config.config_name <$> glob E (d +:+ "/*.yml")).
Proof.
  split; [reflexivity|].
  unfold config.list, bind. rewrite get_config_dirs_spec. unfold ret.
  rewrite list_dirs_fold.
  set (dirs := config_dirs E fips_dir proj_dir).
  eexists. split; [reflexivity|].
  destruct (fold_dict_set_keys (listed_names E) dirs []) as (ks & Hk & Hsub & Hnd).
  rewrite Hk. cbn [fmap list_fmap app]. split_and!.
  - apply Hnd. constructor.
  - done.
  - intros d Hd. exists (listed_names E d). split_and!.
    + rewrite fold_dict_set_get. by rewrite decide_True.
    + apply Sorted_merge_sort. apply _.
    + apply merge_sort_Permutation.
Qed.

(** ** The clean verb *)

Lemma load_paths_named E paths configs s out s' :
  config.load_paths E paths configs s = (Ret out, s') →
  Forall (λ c : config, is_Some (c !! "name")) configs →
  Forall (λ c : config, is_Some (c !! "name")) out.
Proof.
  revert configs s. induction paths as [|p paths IH]; intros configs s; cbn.
  - by intros [= <- _].
  - destruct (yaml_load E p) as [doc|message].
    + destruct (config.name_taken configs _); intros H Hc; apply (IH _ _ H); [done|].
      apply Forall_app. split; [done|]. apply Forall_singleton.
      rewrite (patch_name p doc). by eexists.
    + unfold bind. destruct message as [m|]; cbn; [|done].
      destruct (py_truthy m); cbn; [done|]. apply IH.
Qed.

Lemma load_dirs_named E pattern dirs configs s out s' :
  config.load_dirs E pattern dirs configs s = (Ret out, s') →
  Forall (λ c : config, is_Some (c !! "name")) configs →
  Forall (λ c : config, is_Some (c !! "name")) out.
Proof.
  revert configs s. induction dirs as [|d dirs IH]; intros configs s; cbn.
  - by intros [= <- _].
  - unfold bind. destruct (config.load_paths _ _ _ _) as [[mid|e] s1] eqn:Hp; [|done].
    intros H Hc. apply (IH _ _ H). by apply (load_paths_named _ _ _ _ _ _ Hp).
Qed.

(** Every config that [load] returns carries its name. *)
Lemma load_named E fips_dir proj_dir pattern s configs s' :
  config.load E fips_dir proj_dir pattern s = (Ret configs, s') →
  Forall (λ c : config, is_Some (c !! "name")) configs.
Proof.
  unfold config.load, bind. rewrite get_config_dirs_spec.
  intros H. by apply (load_dirs_named _ _ _ _ _ _ _ H).
Qed.

Lemma clean_loop_nothing E fips_dir proj_name configs n s :
  Forall (λ c : config, is_Some (c !! "name")) configs →
  (∀ cfg name, cfg ∈ configs → cfg !! "name" = Some name →
     isdir (st_fs s) (get_build_dir E fips_dir proj_name name) = false
     ∧ isdir (st_fs s) (get_deploy_dir E fips_dir proj_name name) = false) →
  project.clean_loop E fips_dir proj_name configs n s = (Ret n, s).
Proof.
  intros Hnamed. induction Hnamed as [|cfg configs [name Hname] _ IH]; intros Hdirs; [done|].
  cbn [project.clean_loop]. unfold bind at 1.
  unfold project.clean_body, bind, getitem, get_fs, ret. rewrite Hname.
  destruct (Hdirs cfg name) as [-> ->]; [left|done|]. cbn.
  apply IH. intros c nm Hc. apply Hdirs. by right.
Qed.

(** C9.  When [clean] matches at least one config and none of the
    matched configs has a build directory or a deploy directory, the call
    returns normally (with [None], the function having no return value),
    having printed the nothing-to-clean line and no error, deleted
    nothing and called no tool. *)
Theorem clean_nothing_to_clean E fips_dir proj_dir cfg_name s configs s1 :
  config.load E fips_dir proj_dir cfg_name s = (Ret configs, s1) →
  configs ≠ [] →
  (∀ cfg name, cfg ∈ configs → cfg !! "name" = Some name →
     isdir (st_fs s1)
       (get_build_dir E fips_dir (get_project_name_from_dir E proj_dir) name) = false
     ∧ isdir (st_fs s1)
         (get_deploy_dir E fips_dir (get_project_name_from_dir E proj_dir) name) = false) →
  project.clean E fips_dir proj_dir cfg_name s
  = (Ret tt,
     printed s1 [colored_line log.YELLOW ("=== clean: nothing to clean for " +:+ cfg_name)]).
Proof.
  intros Hload Hne Hdirs. unfold project.clean, bind. rewrite Hload.
  destruct configs as [|cfg configs]; [done|].
  rewrite clean_loop_nothing; [done| |done].
  by apply (load_named _ _ _ _ _ _ _ Hload).
Qed.

Lemma clean_nothing_to_clean_witness :
  project.clean Scenario.E_three Scenario.fips_dir Scenario.proj_dir "*"
    (Scenario.start Scenario.empty_fs)
  = (Ret tt,
     printed (Scenario.start Scenario.empty_fs)
       [colored_line log.YELLOW "=== clean: nothing to clean for *"]).
Proof.
  apply (clean_nothing_to_clean Scenario.E_three Scenario.fips_dir Scenario.proj_dir "*"
           (Scenario.start Scenario.empty_fs)
           [config.patch "/ws/fips/configs/a.yml" (Scenario.doc "linux" "make" "Debug");
            config.patch "/ws/fips/configs/b.yml" (Scenario.doc "linux" "scons" "Debug");
            config.patch "/ws/fips/configs/c.yml" (Scenario.doc "linux" "make" "Release")]
           (Scenario.start Scenario.empty_fs)).
  - by vm_compute.
  - done.
  - intros cfg name _ _. split; reflexivity.
Defined.

(** ** Generation *)



(** *** What the file operations leave alone *)





(** In a directory that exists, [os.makedirs] makes the one directory. *)
Lemma os_makedirs_in_directory p s head tail :
  os_path_split p = (head, tail) →
  head ≠ "" → tail ≠ "" →
  isdir (st_fs s) head = true →
  path_exists (st_fs s) p = false →
  os_makedirs p s = (Ret tt, mkState (st_out s) (fs_mkdir p (st_fs s)) (st_calls s)).
Proof.
  intros Hsplit Hhead Htail Hdir Hfree.
  assert (p ≠ "") as Hp by (intros ->; by injection Hsplit as <- <-).
  assert (os_mkdir p s = (Ret tt, mkState (st_out s) (fs_mkdir p (st_fs s)) (st_calls s)))
    as Hmkdir.
  { unfold os_mkdir, bind, get_fs, set_fs.
    rewrite bool_decide_eq_false_2 by done. rewrite Hfree, Hsplit. cbn [fst].
    by rewrite Hdir, orb_true_r. }
  unfold os_makedirs.
  destruct (String.length p); cbn [makedirs]; rewrite Hsplit;
    rewrite (bool_decide_eq_false_2 (tail = "")) by done;
    unfold bind at 1; unfold get_fs at 1;
    unfold path_exists at 1; rewrite Hdir; cbn [orb negb];
    rewrite andb_false_r; exact Hmkdir.
Qed.



(** *** The recursion of [os.makedirs] ends *)

Lemma split_last_length sep p :
  String.length (split_last sep p).1 + String.length (split_last sep p).2 = String.length p.
Proof.
  induction p as [|c r IH]; [done|]. cbn [split_last].
  destruct (split_last sep r) as [h t]. cbn [fst snd] in IH.
  destruct h as [|c' h]; [destruct (bool_decide (c = sep))|]; cbn in *; lia.
Qed.

Lemma rstrip_length c s : String.length (rstrip c s) ≤ String.length s.
Proof.
  induction s as [|c' r IH]; [done|]. cbn [rstrip].
  destruct (rstrip c r) as [|c'' r']; [destruct (bool_decide (c' = c))|]; cbn in *; lia.
Qed.

Lemma os_path_split_length p :
  String.length (os_path_split p).1 + String.length (os_path_split p).2 ≤ String.length p.
Proof.
  unfold os_path_split. pose proof (split_last_length "/" p) as Hlen.
  destruct (split_last "/" p) as [h t]. cbn [fst snd] in Hlen.
  destruct (_ && _); cbn [fst snd]; [|lia].
  pose proof (rstrip_length "/" h). lia.
Qed.

(** The head [os.makedirs] goes on with is shorter than the path, so the
    length of the path is fuel enough. *)
Lemma makedirs_fuel n : ∀ m p s,
  String.length p ≤ n → String.length p ≤ m → makedirs n p s = makedirs m p s.
Proof.
  induction n as [|n IH]; intros m p s Hn Hm.
  - assert (p = "") as -> by (destruct p; [done|cbn in Hn; lia]). by destruct m.
  - destruct m as [|m].
    { assert (p = "") as -> by (destruct p; [done|cbn in Hm; lia]). done. }
    cbn [makedirs].
    pose proof (os_path_split_length p) as Hp.
    destruct (os_path_split p) as [head tail]. cbn [fst snd] in Hp.
    pose proof (os_path_split_length head) as Hhead.
    destruct (if bool_decide (tail = "") then os_path_split head else (head, tail))
      as [h t] eqn:Hht.
    assert (String.length h + String.length t ≤ String.length p) as Hlen.
    { destruct (bool_decide (tail = "")); [rewrite Hht in Hhead|injection Hht as <- <-];
        cbn [fst snd] in *; lia. }
    unfold bind at 1 3. unfold get_fs.
    destruct (negb (bool_decide (h = ""))) eqn:Hh; [|done].
    destruct (negb (bool_decide (t = ""))) eqn:Ht; [|done].
    destruct (negb (path_exists (st_fs s) h)); [|done]. cbn [andb].
    apply negb_true_iff, bool_decide_eq_false_1 in Ht.
    assert (0 < String.length t) by (destruct t; [done|cbn; lia]).
    unfold bind, except_file_exists. by rewrite (IH m h s) by lia.
Qed.

(** *** Plainly spelled paths *)










(** *** Computations that start nothing outside *)


Lemma no_call_raise {A} e : no_call (raise e : M A).
Proof. done. Qed.








(** ** IDE workspace files *)











(** *** One config, with the attributes that generation reads *)

Section generation.

Variables (E : Env) (fips_dir proj_dir : string) (cfg : config).
Variables (name generator platform path build_tool : pyval).
Variables (generator_platform generator_toolset build_type cfg_defines : pyval).
Variable (items : list (string * pyval)).

Hypothesis Hname : cfg !! "name" = Some name.
Hypothesis Hgenerator : cfg !! "generator" = Some generator.
Hypothesis Hplatform : cfg !! "platform" = Some platform.
Hypothesis Hpath : cfg !! "path" = Some path.
Hypothesis Hbuild_tool : cfg !! "build_tool" = Some build_tool.
Hypothesis Hgenerator_platform : cfg !! "generator-platform" = Some generator_platform.
Hypothesis Hgenerator_toolset : cfg !! "generator-toolset" = Some generator_toolset.
Hypothesis Hbuild_type : cfg !! "build_type" = Some build_type.
Hypothesis Hdefines : cfg !! "defines" = Some cfg_defines.
Hypothesis Hitems : cmake.define_items E cfg_defines = inr items.
Hypothesis Hposix : platform_system E ≠ "Windows".











End generation.


